(** * Configuration version compatibility checker (src/main.py)

    A shallow embedding of the checker: the document loader
    ([load_config]), the comparator ([is_version_compatible]) and the
    orchestration in [main], followed by the properties of the
    specification that were checked against them.

    Modelling conventions.
    - A Python [str] is a [string]; a character is the code point it
      encodes, so the model covers the code points U+0000..U+00FF.
    - Python integers are unbounded: [Z].  [int()] refuses a literal of
      more digits than the interpreter's limit, [int_max_str_digits], which
      the program leaves at its default of 4300.
    - Exceptions are values of [exn]; a computation is a function from the
      logger state to a result (a value or a raised exception) and the new
      state.  The state records the logging threshold and the trace of
      observable events (log records, standard output, file operations).
    - [open], [json.load] and [yaml.safe_load] are library calls: the
      section [Program] takes them as variables. *)

From Stdlib Require Import ZArith List String Ascii Bool Lia.
From Stdlib Require Import Floats.SpecFloat.
Import ListNotations.

Set Warnings "-register-all".

Local Open Scope string_scope.
Local Open Scope Z_scope.

(** ** Values produced by the JSON and YAML loaders *)

Inductive pyval : Type :=
| VNone
| VBool (b : bool)
| VInt (n : Z)
| VFloat (f : spec_float)
| VStr (s : string)
| VBytes (b : string)
| VDate (iso : string)
| VDatetime (iso : string)
| VList (items : list pyval)
| VSet (items : list pyval)
| VDict (entries : list (pyval * pyval)).

(** [bool(v)], the test behind [not v]. *)
Definition truthy (v : pyval) : bool :=
  match v with
  | VNone => false
  | VBool b => b
  | VInt n => negb (n =? 0)
  | VFloat f => match f with S754_zero _ => false | _ => true end
  | VStr s => negb (String.eqb s "")
  | VBytes b => negb (String.eqb b "")
  | VDate _ | VDatetime _ => true
  | VList l | VSet l => match l with [] => false | _ => true end
  | VDict l => match l with [] => false | _ => true end
  end.

(** The name Python prints for the type of a value. *)
Definition type_name (v : pyval) : string :=
  match v with
  | VNone => "NoneType"
  | VBool _ => "bool"
  | VInt _ => "int"
  | VFloat _ => "float"
  | VStr _ => "str"
  | VBytes _ => "bytes"
  | VDate _ => "datetime.date"
  | VDatetime _ => "datetime.datetime"
  | VList _ => "list"
  | VSet _ => "set"
  | VDict _ => "dict"
  end.

(** ** Exceptions *)

(** Classes of the exceptions the library calls may raise.  Every one of
    them derives from [Exception]. *)
Inductive lib_class : Type :=
| CFileNotFoundError      (* OSError subclass *)
| COSError                (* any other OSError *)
| CValueError
| CJSONDecodeError        (* ValueError subclass *)
| CUnicodeDecodeError     (* ValueError subclass *)
| CYAMLError
| COtherException.        (* any other subclass of Exception *)

Inductive mismatch : Type := Major | Minor.

(** An exception value remembers where it was raised. *)
Inductive exn : Type :=
| LibError (c : lib_class) (msg : string)   (* raised inside a library call *)
| InvalidConfigType                         (* ValueError, load_config line 98 *)
| NoAttribute (ty attr : string)            (* AttributeError: x.get, x.split *)
| BytesSplitStr                             (* TypeError: bytes.split(str) *)
| InvalidLiteral (s : string)               (* ValueError raised by int(s) *)
| NotEnoughValues (got : nat)               (* ValueError: unpacking, too few *)
| TooManyValues                             (* ValueError: unpacking, too many *)
| Incompatible (m : mismatch) (config_version app_version : string)
                                            (* VersionIncompatibilityError *)
| SystemExit (status : Z).                  (* sys.exit(status) *)

(** [isinstance] tests used by the [except] clauses of the program. *)
Definition is_FileNotFoundError (e : exn) : bool :=
  match e with LibError CFileNotFoundError _ => true | _ => false end.

Definition is_JSONDecodeError (e : exn) : bool :=
  match e with LibError CJSONDecodeError _ => true | _ => false end.

Definition is_YAMLError (e : exn) : bool :=
  match e with LibError CYAMLError _ => true | _ => false end.

Definition is_ValueError (e : exn) : bool :=
  match e with
  | LibError (CValueError | CJSONDecodeError | CUnicodeDecodeError) _ => true
  | InvalidConfigType | InvalidLiteral _ | NotEnoughValues _ | TooManyValues => true
  | _ => false
  end.

Definition is_VersionIncompatibilityError (e : exn) : bool :=
  match e with Incompatible _ _ _ => true | _ => false end.

(** [SystemExit] derives from [BaseException] only. *)
Definition is_Exception (e : exn) : bool :=
  match e with SystemExit _ => false | _ => true end.

(** The f-strings of lines 130 and 134. *)
Definition incompatible_message (m : mismatch) (config_version app_version : string) : string :=
  "Configuration version " ++ config_version ++
  " is not compatible with application version " ++ app_version ++
  match m with
  | Major => " (Major version mismatch)."
  | Minor => " (Minor version mismatch)."
  end.

(** ** Logger state, events and the computation monad *)

Inductive level : Type := DEBUG | INFO | WARNING | ERROR.

Definition level_rank (l : level) : nat :=
  match l with DEBUG => 10 | INFO => 20 | WARNING => 30 | ERROR => 40 end%nat.

(** A log record is either a literal text or a text followed by [str(e)]
    of an exception. *)
Inductive log_msg : Type :=
| Text (s : string)
| TextExn (prefix : string) (e : exn).

Inductive file_format : Type := Json | Yaml.

Inductive event : Type :=
| Log (lvl : level) (msg : log_msg)
| Stdout (line : string)
| FileOpen (path : string)
| FileParse (fmt : file_format) (path : string)
| FileClose (path : string).

Record state : Type := mkState { log_level : level; trace : list event }.

(** [logging.basicConfig(level=logging.INFO)], nothing emitted yet. *)
Definition initial_state : state := mkState INFO [].

Definition M (A : Type) : Type := state -> (exn + A) * state.

Definition ret {A} (a : A) : M A := fun st => (inr a, st).

Definition raise {A} (e : exn) : M A := fun st => (inl e, st).

Definition bind {A B} (m : M A) (k : A -> M B) : M B :=
  fun st =>
    match m st with
    | (inr a, st') => k a st'
    | (inl e, st') => (inl e, st')
    end.

(** [try: m  except ...: h e]; the handler re-raises what no clause
    matches. *)
Definition try_except {A} (m : M A) (h : exn -> M A) : M A :=
  fun st =>
    match m st with
    | (inr a, st') => (inr a, st')
    | (inl e, st') => h e st'
    end.

(** A pure fallible step. *)
Definition lift {A} (r : exn + A) : M A := fun st => (r, st).

Definition emit (ev : event) : M unit :=
  fun st => (inr tt, mkState (log_level st) (trace st ++ [ev])).

Definition logging (lvl : level) (msg : log_msg) : M unit :=
  fun st =>
    if (level_rank (log_level st) <=? level_rank lvl)%nat
    then emit (Log lvl msg) st
    else (inr tt, st).

Definition setLevel (lvl : level) : M unit :=
  fun st => (inr tt, mkState lvl (trace st)).

Definition print (line : string) : M unit := emit (Stdout line).

Declare Scope prog_scope.
Delimit Scope prog_scope with prog.
Notation "x <- m ;; k" := (bind m (fun x => k))
  (at level 61, m at next level, right associativity) : prog_scope.
Notation "m ;; k" := (bind m (fun _ => k))
  (at level 61, right associativity) : prog_scope.
Local Open Scope prog_scope.

(** ** [str.split] and [int] *)

(** [s.split(sep)] for a one-character separator. *)
Fixpoint split (sep : ascii) (s : string) : list string :=
  match s with
  | EmptyString => [EmptyString]
  | String c r =>
      if Ascii.eqb c sep then EmptyString :: split sep r
      else match split sep r with
           | h :: t => String c h :: t
           | [] => [String c EmptyString]
           end
  end.

Definition code (c : ascii) : Z := Z.of_N (N_of_ascii c).

(** Value of an ASCII decimal digit.  Among the code points of the model
    (U+0000..U+00FF) these are the only decimal digits; [int] also reads
    the decimal digits of other scripts, which lie above U+00FF. *)
Definition digit_value (c : ascii) : option Z :=
  if (48 <=? code c) && (code c <=? 57) then Some (code c - 48) else None.

(** White space [int] skips around the literal: tab, line feed, vertical
    tab, form feed, carriage return, space, and the two white-space code
    points above U+007F in range (NEL U+0085, NBSP U+00A0).  The other
    white-space code points [int] skips lie above U+00FF. *)
Definition int_space (c : ascii) : bool :=
  ((9 <=? code c) && (code c <=? 13)) || (code c =? 32)
  || (code c =? 133) || (code c =? 160).

Fixpoint skip_space (s : string) : string :=
  match s with
  | String c r => if int_space c then skip_space r else s
  | EmptyString => s
  end.

(** The interpreter's limit on the number of digits [int] converts
    ([sys.int_info.default_max_str_digits]); the program never changes
    it. *)
Definition int_max_str_digits : nat := 4300.

(** Digits after the first one; a single underscore may separate two
    digits.  Returns the value, the number of digits read and the unread
    rest. *)
Fixpoint scan_digits (after_underscore : bool) (acc : Z) (digits : nat)
  (s : string) : option (Z * nat * string) :=
  match s with
  | String c r =>
      match digit_value c with
      | Some d => scan_digits false (10 * acc + d) (S digits) r
      | None =>
          if after_underscore then None
          else if Ascii.eqb c "_" then scan_digits true acc digits r
          else Some (acc, digits, s)
      end
  | EmptyString => if after_underscore then None else Some (acc, digits, s)
  end.

Definition parse_digits (s : string) : option (Z * nat * string) :=
  match s with
  | String c r =>
      match digit_value c with
      | Some d => scan_digits false d 1 r
      | None => None
      end
  | EmptyString => None
  end.

(** [int(s)] in base 10: white space, an optional sign, the digits,
    white space, and nothing else; the digits, however many leading zeros
    or underscores, may not be more than the limit.  An invalid literal
    and one over the limit both raise [ValueError]. *)
Definition py_int (s : string) : exn + Z :=
  let s1 := skip_space s in
  let '(negative, s2) :=
    match s1 with
    | String c r =>
        if Ascii.eqb c "+" then (false, r)
        else if Ascii.eqb c "-" then (true, r)
        else (false, s1)
    | EmptyString => (false, s1)
    end in
  match parse_digits s2 with
  | Some (n, digits, rest) =>
      if (digits <=? int_max_str_digits)%nat then
        match skip_space rest with
        | EmptyString => inr (if negative then - n else n)
        | _ => inl (InvalidLiteral s)
        end
      else inl (InvalidLiteral s)
  | None => inl (InvalidLiteral s)
  end.

(** [a, b, c = map(int, parts)]: the conversions run one by one as the
    unpacking asks for the next item, and a fourth item is asked for to
    detect a surplus. *)
Definition unpack3 (parts : list string) : exn + (Z * Z * Z) :=
  match parts with
  | [] => inl (NotEnoughValues 0)
  | p1 :: t1 =>
      match py_int p1 with
      | inl e => inl e
      | inr a =>
          match t1 with
          | [] => inl (NotEnoughValues 1)
          | p2 :: t2 =>
              match py_int p2 with
              | inl e => inl e
              | inr b =>
                  match t2 with
                  | [] => inl (NotEnoughValues 2)
                  | p3 :: t3 =>
                      match py_int p3 with
                      | inl e => inl e
                      | inr c =>
                          match t3 with
                          | [] => inr (a, b, c)
                          | p4 :: _ =>
                              match py_int p4 with
                              | inl e => inl e
                              | inr _ => inl TooManyValues
                              end
                          end
                      end
                  end
              end
          end
      end
  end.

(** [v.split(".")] on whatever value the caller passed. *)
Definition py_split (v : pyval) : exn + list string :=
  match v with
  | VStr s => inr (split "." s)
  | VBytes _ => inl BytesSplitStr
  | _ => inl (NoAttribute (type_name v) "split")
  end.

(** [str(v)] inside the f-strings; only reached once [v.split] has
    succeeded, hence for a [str]. *)
Definition text_of (v : pyval) : string :=
  match v with VStr s => s | _ => "" end.

(** ** The comparator (lines 109-144) *)

Definition is_version_compatible (config_version : pyval) (app_version : string)
  : M bool :=
  try_except
    (parts <- lift (py_split config_version) ;;
     c <- lift (unpack3 parts) ;;
     a <- lift (unpack3 (split "." app_version)) ;;
     let '(config_major, config_minor, config_patch) := c in
     let '(app_major, app_minor, app_patch) := a in
     if config_major >? app_major then
       raise (Incompatible Major (text_of config_version) app_version)
     else if (config_major =? app_major) && (config_minor >? app_minor) then
       raise (Incompatible Minor (text_of config_version) app_version)
     else
       logging INFO (Text ("Configuration version " ++ text_of config_version ++
                           " is compatible with application version " ++
                           app_version ++ ".")) ;;
       ret true)
    (fun e =>
       if is_ValueError e then
         logging ERROR (Text "Invalid version format. Expected major.minor.patch.") ;;
         raise e
       else if is_VersionIncompatibilityError e then
         logging WARNING (TextExn "" e) ;;
         raise e
       else raise e).

(** What the caller observes of a call: the returned value or the raised
    exception, from the start-up logger state. *)
Definition result_of {A} (m : M A) : exn + A := fst (m initial_state).

(** ** The loader and the orchestration *)

(** Dictionary lookup by a [str] key: only a [str] key can be equal to it.
    The entries are in insertion order and a dictionary holds a key once. *)
Definition key_eqb (key : string) (k : pyval) : bool :=
  match k with VStr s => String.eqb s key | _ => false end.

Fixpoint dict_get (entries : list (pyval * pyval)) (key : string) : option pyval :=
  match entries with
  | [] => None
  | (k, v) :: rest => if key_eqb key k then Some v else dict_get rest key
  end.

(** [doc.get(key)]: [None] for an absent key; only a [dict] has [get]. *)
Definition py_get (doc : pyval) (key : string) : exn + pyval :=
  match doc with
  | VDict entries =>
      inr (match dict_get entries key with Some v => v | None => VNone end)
  | _ => inl (NoAttribute (type_name doc) "get")
  end.

Definition sys_exit {A} (status : Z) : M A := raise (SystemExit status).

(** Leaving a [with] block closes the file, whatever the block did. *)
Definition with_close {A} (path : string) (body : M A) : M A :=
  fun st =>
    let '(r, st') := body st in
    (r, snd (emit (FileClose path) st')).

(** The values argparse accepts for [--config-type] (line 54). *)
Definition config_type_choices : list string := ["json"; "yaml"].

Record args : Type := mkArgs {
  config_file : string;
  app_version : string;
  version_key : string;
  config_type : string;
  verbose : bool
}.

(** What the operating system sees of a finished run. *)
Record process : Type := mkProcess {
  exit_status : Z;
  stdout : list string;
  events : list event
}.

Fixpoint stdout_lines (tr : list event) : list string :=
  match tr with
  | [] => []
  | Stdout l :: rest => l :: stdout_lines rest
  | _ :: rest => stdout_lines rest
  end.

(** Lines 159-163 of [main]: look the version up and stop the process when
    it is missing or empty. *)
Definition extract_version (config_data : pyval) (key : string) : M pyval :=
  config_version <- lift (py_get config_data key) ;;
  if negb (truthy config_version) then
    logging ERROR (Text ("Version key '" ++ key ++
                         "' not found in configuration file.")) ;;
    sys_exit 1
  else ret config_version.

(** ** The specification's reading of a version string *)

Definition is_digit (c : ascii) : bool := (48 <=? code c) && (code c <=? 57).

Fixpoint all_digits (s : string) : bool :=
  match s with
  | EmptyString => true
  | String c r => is_digit c && all_digits r
  end.

(** A non-negative integer in decimal: one or more ASCII digits. *)
Definition decimal (s : string) : bool :=
  match s with
  | EmptyString => false
  | String _ _ => all_digits s
  end.

Fixpoint decimal_acc (acc : Z) (s : string) : Z :=
  match s with
  | EmptyString => acc
  | String c r => decimal_acc (10 * acc + (code c - 48)) r
  end.

Definition decimal_value (s : string) : Z := decimal_acc 0 s.

(** "Exactly three dot-separated non-negative integers": the triple
    (major, minor, patch) of a well-formed version string. *)
Definition spec_parse_version (s : string) : option (Z * Z * Z) :=
  match split "." s with
  | [a; b; c] =>
      if decimal a && decimal b && decimal c
      then Some (decimal_value a, decimal_value b, decimal_value c)
      else None
  | _ => None
  end.

(** The result of the comparator without the logging around it. *)
Definition comparator_result (config_version : pyval) (app_version : string)
  : exn + bool :=
  match py_split config_version with
  | inl e => inl e
  | inr parts =>
      match unpack3 parts with
      | inl e => inl e
      | inr (config_major, config_minor, _) =>
          match unpack3 (split "." app_version) with
          | inl e => inl e
          | inr (app_major, app_minor, _) =>
              if config_major >? app_major then
                inl (Incompatible Major (text_of config_version) app_version)
              else if (config_major =? app_major) && (config_minor >? app_minor) then
                inl (Incompatible Minor (text_of config_version) app_version)
              else inr true
          end
      end
  end.

(** Outcome of a check with the version strings forgotten. *)
Inductive outcome : Type :=
| Compatible
| Mismatch (m : mismatch)
| FormatError
| OtherError
| NotCompatible.

Definition outcome_of (r : exn + bool) : outcome :=
  match r with
  | inr true => Compatible
  | inr false => NotCompatible
  | inl (Incompatible m _ _) => Mismatch m
  | inl e => if is_ValueError e then FormatError else OtherError
  end.

(** A component [int] accepts. *)
Definition int_literal (s : string) : bool :=
  match py_int s with inr _ => true | inl _ => false end.

(** Exactly three components, each accepted by [int]. *)
Definition three_int_literals (s : string) : bool :=
  match split "." s with
  | [a; b; c] => int_literal a && int_literal b && int_literal c
  | _ => false
  end.

(** The result of the extraction step without the logging. *)
Definition extract_result (doc : pyval) (key : string) : exn + pyval :=
  match py_get doc key with
  | inl e => inl e
  | inr v => if truthy v then inr v else inl (SystemExit 1)
  end.

(** A computation that writes nothing to standard output. *)
Definition silent {A} (m : M A) : Prop :=
  forall st, stdout_lines (trace (snd (m st))) = stdout_lines (trace st).

(** ** Vocabulary for the further properties *)

(** Number of occurrences of a character in a string. *)
Fixpoint count_char (c : ascii) (s : string) : nat :=
  match s with
  | EmptyString => O
  | String d r => if Ascii.eqb d c then S (count_char c r) else count_char c r
  end.

Fixpoint string_forall (p : ascii -> bool) (s : string) : bool :=
  match s with
  | EmptyString => true
  | String c r => p c && string_forall p r
  end.

Fixpoint occurs (c : ascii) (s : string) : bool :=
  match s with
  | EmptyString => false
  | String d r => Ascii.eqb d c || occurs c r
  end.

(** The characters a component accepted by [int] is made of, among the
    code points of the model (U+0000..U+00FF). *)
Definition literal_char (c : ascii) : bool :=
  is_digit c || int_space c
  || Ascii.eqb c "+" || Ascii.eqb c "-" || Ascii.eqb c "_".

(** A string of [n] copies of a character. *)
Fixpoint replicate (n : nat) (c : ascii) : string :=
  match n with
  | O => EmptyString
  | S m => String c (replicate m c)
  end.

(** Every component is at most as long as the digit limit of [int]. *)
Definition within_digit_limit (s : string) : bool :=
  forallb (fun part => (String.length part <=? int_max_str_digits)%nat)
    (split "." s).

(** Decimal digits with single underscores between them: the string
    starts and ends with a digit and no two underscores are adjacent.
    [after_digit] tells whether the character before was a digit. *)
Fixpoint grouped (after_digit : bool) (s : string) : bool :=
  match s with
  | EmptyString => after_digit
  | String c r =>
      if is_digit c then grouped true r
      else if Ascii.eqb c "_" then after_digit && grouped false r
      else false
  end.

Definition digit_groups (s : string) : bool := grouped false s.

Fixpoint count_digits (s : string) : nat :=
  match s with
  | EmptyString => O
  | String c r => if is_digit c then S (count_digits r) else count_digits r
  end.

(** The number written by digits and underscores: the underscores are
    skipped. *)
Fixpoint grouped_acc (acc : Z) (s : string) : Z :=
  match s with
  | EmptyString => acc
  | String c r =>
      if is_digit c then grouped_acc (10 * acc + (code c - 48)) r
      else grouped_acc acc r
  end.

Definition grouped_value (s : string) : Z := grouped_acc 0 s.

(** The file operations in a trace. *)
Definition is_file_event (ev : event) : bool :=
  match ev with
  | FileOpen _ | FileParse _ _ | FileClose _ => true
  | _ => false
  end.

Definition file_events (tr : list event) : list event := filter is_file_event tr.

Definition is_debug_record (ev : event) : bool :=
  match ev with Log DEBUG _ => true | _ => false end.

(** The events before the guarded part of [main]. *)
Definition prelude_events (a : args) : list event :=
  if verbose a then [Log DEBUG (Text "Verbose logging enabled.")] else [].

(** A computation that leaves the logging threshold alone. *)
Definition keeps_level {A} (m : M A) : Prop :=
  forall st, log_level (snd (m st)) = log_level st.

(** A computation that emits no debug record while the threshold is INFO. *)
Definition no_debug_at_info {A} (m : M A) : Prop :=
  forall st,
    log_level st = INFO ->
    log_level (snd (m st)) = INFO /\
    (forallb (fun ev => negb (is_debug_record ev)) (trace st) = true ->
     forallb (fun ev => negb (is_debug_record ev)) (trace (snd (m st))) = true).

Section Program.

(** The file system and the two parsers. *)
Variable file : Type.
Variable py_open : string -> (lib_class * string) + file.
Variable json_load : file -> (lib_class * string) + pyval.
Variable yaml_safe_load : file -> (lib_class * string) + pyval.

Definition lib_call {A} (r : (lib_class * string) + A) : M A :=
  match r with
  | inl (c, msg) => raise (LibError c msg)
  | inr a => ret a
  end.

(** Lines 66-107. *)
Definition load_config (config_file config_type : string) : M pyval :=
  try_except
    (f <- (emit (FileOpen config_file) ;; lib_call (py_open config_file)) ;;
     config_data <-
       with_close config_file
         (if String.eqb config_type "json" then
            try_except
              (emit (FileParse Json config_file) ;; lib_call (json_load f))
              (fun e =>
                 if is_JSONDecodeError e then
                   logging ERROR (TextExn "Error decoding JSON file: " e) ;;
                   raise e
                 else raise e)
          else if String.eqb config_type "yaml" then
            try_except
              (emit (FileParse Yaml config_file) ;; lib_call (yaml_safe_load f))
              (fun e =>
                 if is_YAMLError e then
                   logging ERROR (TextExn "Error decoding YAML file: " e) ;;
                   raise e
                 else raise e)
          else raise InvalidConfigType) ;;
     logging DEBUG (Text ("Successfully loaded config file: " ++ config_file)) ;;
     ret config_data)
    (fun e =>
       if is_FileNotFoundError e then
         logging ERROR (Text ("Configuration file not found: " ++ config_file)) ;;
         raise e
       else if is_ValueError e then
         logging ERROR (TextExn "" e) ;;
         raise e
       else raise e).

(** The [except] clauses of [main] (lines 168-176), tried in order. *)
Definition main_except (e : exn) : M unit :=
  if is_FileNotFoundError e then sys_exit 1
  else if is_ValueError e then sys_exit 1
  else if is_VersionIncompatibilityError e then sys_exit 1
  else if is_Exception e then
    logging ERROR (TextExn "An unexpected error occurred: " e) ;;
    sys_exit 1
  else raise e.

(** Lines 146-176, from the parsed arguments on. *)
Definition main (a : args) : M unit :=
  (if verbose a then
     setLevel DEBUG ;;
     logging DEBUG (Text "Verbose logging enabled.")
   else ret tt) ;;
  try_except
    (config_data <- load_config (config_file a) (config_type a) ;;
     config_version <- extract_version config_data (version_key a) ;;
     is_version_compatible config_version (app_version a) ;;
     print "Configuration version is compatible.")
    main_except.

(** The process: status 0 when [main] returns, the status of
    [sys.exit], and 1 for an exception nobody caught. *)
Definition run (a : args) : process :=
  let '(r, st) := main a initial_state in
  mkProcess
    (match r with
     | inr _ => 0
     | inl (SystemExit status) => status
     | inl _ => 1
     end)
    (stdout_lines (trace st))
    (trace st).

(** The result of a library call as an exception or a value. *)
Definition lib_result {A} (r : (lib_class * string) + A) : exn + A :=
  match r with
  | inl (c, msg) => inl (LibError c msg)
  | inr a => inr a
  end.

(** The result of the loader without the logging and the file events. *)
Definition load_result (path tag : string) : exn + pyval :=
  match py_open path with
  | inl (c, msg) => inl (LibError c msg)
  | inr f =>
      if String.eqb tag "json" then lib_result (json_load f)
      else if String.eqb tag "yaml" then lib_result (yaml_safe_load f)
      else inl InvalidConfigType
  end.

(** Loader, extraction and comparator in sequence, without the logging. *)
Definition pipeline (a : args) : exn + bool :=
  match load_result (config_file a) (config_type a) with
  | inl e => inl e
  | inr doc =>
      match extract_result doc (version_key a) with
      | inl e => inl e
      | inr v => comparator_result v (app_version a)
      end
  end.

End Program.

Arguments load_config {file}.
Arguments main {file}.
Arguments run {file}.
Arguments load_result {file}.
Arguments pipeline {file}.

(** ** Small worlds to run the program in *)

(** Every path holds the given document, in either format. *)
Definition world_open : string -> (lib_class * string) + string :=
  fun path => inr path.

Definition world_parse (doc : pyval) : string -> (lib_class * string) + pyval :=
  fun _ => inr doc.

(** A parser that rejects every file. *)
Definition world_fail (c : lib_class) (msg : string)
  : string -> (lib_class * string) + pyval :=
  fun _ => inl (c, msg).

(** No path can be opened. *)
Definition empty_open : string -> (lib_class * string) + string :=
  fun path => inl (CFileNotFoundError, "No such file or directory").

Definition run_with (doc : pyval) (a : args) : process :=
  run world_open (world_parse doc) (world_parse doc) a.


(** * Properties *)

(** ** Characters and literals *)

Lemma eqb_code (c d : ascii) : code c <> code d -> Ascii.eqb c d = false.
Proof.
  intros H. destruct (Ascii.eqb_spec c d) as [->|]; [contradiction | reflexivity].
Qed.

Ltac to_arith :=
  repeat match goal with
    | H : _ && _ = true |- _ => apply andb_true_iff in H; destruct H
    | H : (_ <=? _) = true |- _ => apply Z.leb_le in H
    | H : (_ =? _) = true |- _ => apply Z.eqb_eq in H
    end.

Lemma digit_value_digit (c : ascii) :
  is_digit c = true -> digit_value c = Some (code c - 48).
Proof. unfold is_digit, digit_value. intros ->. reflexivity. Qed.

Lemma digit_not_space (c : ascii) : is_digit c = true -> int_space c = false.
Proof.
  unfold is_digit, int_space. intros H. to_arith.
  repeat (apply orb_false_iff; split);
    [ apply andb_false_iff; right; apply Z.leb_gt; lia
    | apply Z.eqb_neq; lia .. ].
Qed.

Lemma digit_not_char (c d : ascii) :
  is_digit c = true -> (code d < 48 \/ 57 < code d) -> Ascii.eqb c d = false.
Proof.
  unfold is_digit. intros H Hd. to_arith. apply eqb_code. lia.
Qed.

Lemma scan_all_digits (s : string) :
  all_digits s = true ->
  forall acc n,
    scan_digits false acc n s
    = Some (decimal_acc acc s, (n + String.length s)%nat, EmptyString).
Proof.
  induction s as [|c r IH]; cbn [scan_digits all_digits decimal_acc String.length];
    intros H acc n.
  - now rewrite Nat.add_0_r.
  - apply andb_true_iff in H. destruct H as [Hc Hr].
    rewrite (digit_value_digit c Hc), (IH Hr), Nat.add_succ_r. reflexivity.
Qed.

Lemma parse_decimal (s : string) :
  decimal s = true ->
  parse_digits s = Some (decimal_value s, String.length s, EmptyString).
Proof.
  destruct s as [|c r]; [discriminate|].
  cbn [decimal all_digits parse_digits String.length]. intros H.
  apply andb_true_iff in H. destruct H as [Hc Hr].
  rewrite (digit_value_digit c Hc), (scan_all_digits r Hr).
  unfold decimal_value. cbn [decimal_acc]. reflexivity.
Qed.

(** [int] reads a run of digits within the limit as its decimal value. *)
Lemma py_int_decimal (s : string) :
  decimal s = true ->
  (String.length s <= int_max_str_digits)%nat ->
  py_int s = inr (decimal_value s).
Proof.
  intros H Hn. pose proof (parse_decimal s H) as P.
  apply Nat.leb_le in Hn.
  destruct s as [|c r]; [discriminate|].
  cbn [decimal all_digits] in H. apply andb_true_iff in H. destruct H as [Hc _].
  unfold py_int. cbn [skip_space]. rewrite (digit_not_space c Hc).
  rewrite (digit_not_char c "+" Hc), (digit_not_char c "-" Hc)
    by (left; reflexivity).
  rewrite P, Hn. reflexivity.
Qed.

(** [int] reads a minus sign before the digits as a negative number. *)
Lemma py_int_negative (s : string) :
  decimal s = true ->
  (String.length s <= int_max_str_digits)%nat ->
  py_int (String "-" s) = inr (- decimal_value s).
Proof.
  intros H Hn. apply Nat.leb_le in Hn. unfold py_int.
  change (skip_space (String "-" s)) with (String "-" s).
  cbn [Ascii.eqb Bool.eqb]. cbv iota beta.
  rewrite (parse_decimal s H), Hn. reflexivity.
Qed.

(** ** The comparator *)

Lemma logging_then_raise {A} (lvl : level) (msg : log_msg) (e : exn) (st : state) :
  fst ((logging lvl msg ;; @raise A e) st) = inl e.
Proof.
  unfold bind, logging, emit, raise.
  destruct (level_rank (log_level st) <=? level_rank lvl)%nat; reflexivity.
Qed.

(** The value returned or the exception raised does not depend on the
    logger. *)
Lemma is_version_compatible_result (v : pyval) (av : string) (st : state) :
  fst (is_version_compatible v av st) = comparator_result v av.
Proof.
  unfold is_version_compatible, comparator_result, try_except, bind, lift.
  destruct (py_split v) as [e|parts] eqn:E.
  - destruct v; simpl in E; try discriminate; injection E as <-; reflexivity.
  - destruct (unpack3 parts) as [e|[[cM cm] cp]].
    + destruct (is_ValueError e); [apply logging_then_raise|].
      destruct (is_VersionIncompatibilityError e);
        [apply logging_then_raise | reflexivity].
    + destruct (unpack3 (split "." av)) as [e|[[aM am] ap]].
      * destruct (is_ValueError e); [apply logging_then_raise|].
        destruct (is_VersionIncompatibilityError e);
          [apply logging_then_raise | reflexivity].
      * destruct (cM >? aM); [apply logging_then_raise|].
        destruct ((cM =? aM) && (cm >? am)); [apply logging_then_raise|].
        unfold logging, emit, ret.
        destruct (level_rank (log_level st) <=? level_rank INFO)%nat; reflexivity.
Qed.

Lemma comparator_result_true (v : pyval) (av : string) (b : bool) :
  comparator_result v av = inr b -> b = true.
Proof.
  unfold comparator_result.
  destruct (py_split v) as [e|parts]; [discriminate|].
  destruct (unpack3 parts) as [e|[[cM cm] cp]]; [discriminate|].
  destruct (unpack3 (split "." av)) as [e|[[aM am] ap]]; [discriminate|].
  destruct (cM >? aM); [discriminate|].
  destruct ((cM =? aM) && (cm >? am)); [discriminate|].
  intros H. injection H as <-. reflexivity.
Qed.

Lemma py_int_error (s : string) (e : exn) :
  py_int s = inl e -> e = InvalidLiteral s.
Proof.
  unfold py_int.
  destruct (match skip_space s with
            | String c r =>
                if Ascii.eqb c "+" then (false, r)
                else if Ascii.eqb c "-" then (true, r)
                else (false, skip_space s)
            | EmptyString => (false, skip_space s)
            end) as [negative s2].
  destruct (parse_digits s2) as [[[n digits] rest]|]; [|congruence].
  destruct (digits <=? int_max_str_digits)%nat; [|congruence].
  destruct (skip_space rest); congruence.
Qed.

Lemma unpack3_error (parts : list string) (e : exn) :
  unpack3 parts = inl e -> is_ValueError e = true.
Proof.
  unfold unpack3.
  repeat match goal with
    | |- context [match ?l with [] => _ | _ :: _ => _ end] => destruct l
    | |- context [py_int ?p] =>
        let E := fresh "E" in
        destruct (py_int p) eqn:E; [apply py_int_error in E; subst|]
    end;
    intros H; try discriminate; injection H as <-; reflexivity.
Qed.

Lemma unpack3_split (s : string) :
  if three_int_literals s
  then exists t, unpack3 (split "." s) = inr t
  else exists e, unpack3 (split "." s) = inl e.
Proof.
  unfold three_int_literals, int_literal, unpack3.
  destruct (split "." s) as [|a [|b [|c [|d l]]]]; simpl; eauto;
    repeat match goal with
      | |- context [py_int ?p] => destruct (py_int p)
      end; simpl; eauto.
Qed.

Lemma spec_parse_unpack3 (s : string) (major minor patch : Z) :
  spec_parse_version s = Some (major, minor, patch) ->
  within_digit_limit s = true ->
  unpack3 (split "." s) = inr (major, minor, patch).
Proof.
  unfold spec_parse_version, within_digit_limit.
  destruct (split "." s) as [|a [|b [|c [|d l]]]]; try discriminate.
  destruct (decimal a) eqn:Da; [|discriminate].
  destruct (decimal b) eqn:Db; [|discriminate].
  destruct (decimal c) eqn:Dc; [|discriminate].
  cbn [andb forallb]. intros H L. injection H as <- <- <-.
  apply andb_true_iff in L. destruct L as [La L].
  apply andb_true_iff in L. destruct L as [Lb L].
  apply andb_true_iff in L. destruct L as [Lc _].
  apply Nat.leb_le in La, Lb, Lc. unfold unpack3.
  rewrite (py_int_decimal a Da La), (py_int_decimal b Db Lb),
    (py_int_decimal c Dc Lc).
  reflexivity.
Qed.

Lemma comparator_well_formed (cv av : string) (cM cm cp aM am ap : Z) :
  spec_parse_version cv = Some (cM, cm, cp) ->
  spec_parse_version av = Some (aM, am, ap) ->
  within_digit_limit cv = true ->
  within_digit_limit av = true ->
  comparator_result (VStr cv) av =
    if cM >? aM then inl (Incompatible Major cv av)
    else if (cM =? aM) && (cm >? am) then inl (Incompatible Minor cv av)
    else inr true.
Proof.
  intros Hc Ha Lc La. unfold comparator_result, py_split, text_of.
  rewrite (spec_parse_unpack3 cv _ _ _ Hc Lc), (spec_parse_unpack3 av _ _ _ Ha La).
  reflexivity.
Qed.

(** *** What [int] accepts *)

Lemma digit_value_none (c : ascii) : is_digit c = false -> digit_value c = None.
Proof. unfold is_digit, digit_value. intros ->. reflexivity. Qed.

Lemma space_not_digit (c : ascii) : int_space c = true -> is_digit c = false.
Proof.
  intros H. destruct (is_digit c) eqn:D; [|reflexivity].
  rewrite (digit_not_space c D) in H. discriminate.
Qed.

Lemma space_not_char (c d : ascii) :
  int_space c = true -> int_space d = false -> Ascii.eqb c d = false.
Proof.
  intros Hc Hd. destruct (Ascii.eqb_spec c d) as [->|]; [congruence | reflexivity].
Qed.

Lemma skip_space_app (ws x : string) :
  string_forall int_space ws = true -> skip_space (ws ++ x) = skip_space x.
Proof.
  induction ws as [|c r IH]; cbn [string_forall append skip_space]; intros H.
  - reflexivity.
  - apply andb_true_iff in H. destruct H as [Hc Hr]. rewrite Hc. apply IH, Hr.
Qed.

Lemma skip_space_all (ws : string) :
  string_forall int_space ws = true -> skip_space ws = EmptyString.
Proof.
  induction ws as [|c r IH]; cbn [string_forall skip_space]; intros H.
  - reflexivity.
  - apply andb_true_iff in H. destruct H as [Hc Hr]. rewrite Hc. apply IH, Hr.
Qed.

(** The scanner reads digits and single underscores up to the white
    space that follows, and counts the digits. *)
Lemma scan_grouped (body ws : string) :
  string_forall int_space ws = true ->
  forall after acc n,
    grouped (negb after) body = true ->
    scan_digits after acc n (body ++ ws)
    = Some (grouped_acc acc body, (n + count_digits body)%nat, ws).
Proof.
  intros Hws. induction body as [|c r IH];
    cbn [grouped append grouped_acc count_digits]; intros after acc n H.
  - destruct after; [discriminate|]. rewrite Nat.add_0_r.
    destruct ws as [|c r]; [reflexivity|].
    cbn [string_forall] in Hws. apply andb_true_iff in Hws.
    destruct Hws as [Hc _]. cbn [scan_digits].
    rewrite (digit_value_none c (space_not_digit c Hc)).
    rewrite (space_not_char c "_" Hc eq_refl). reflexivity.
  - cbn [scan_digits]. destruct (is_digit c) eqn:D.
    + rewrite (digit_value_digit c D), (IH false _ _ H), Nat.add_succ_r.
      reflexivity.
    + rewrite (digit_value_none c D).
      destruct (Ascii.eqb c "_"); [|discriminate].
      apply andb_true_iff in H. destruct H as [Ha Hr].
      destruct after; [discriminate|]. apply (IH true _ _ Hr).
Qed.

Lemma parse_grouped (body ws : string) :
  digit_groups body = true ->
  string_forall int_space ws = true ->
  parse_digits (body ++ ws)
  = Some (grouped_value body, count_digits body, ws).
Proof.
  unfold digit_groups, grouped_value. intros H Hws.
  destruct body as [|c r]; [discriminate|].
  cbn [grouped append parse_digits grouped_acc count_digits] in *.
  destruct (is_digit c) eqn:D.
  - rewrite (digit_value_digit c D), (scan_grouped r ws Hws false _ _ H).
    reflexivity.
  - destruct (Ascii.eqb c "_"); discriminate.
Qed.

Lemma digit_groups_head (body ws : string) :
  digit_groups body = true ->
  exists c r, body ++ ws = String c r /\ is_digit c = true.
Proof.
  unfold digit_groups. destruct body as [|c r]; [discriminate|].
  cbn [grouped append]. destruct (is_digit c) eqn:D.
  - intros _. now exists c, (r ++ ws).
  - destruct (Ascii.eqb c "_"); discriminate.
Qed.

(** [int] accepts digits grouped by single underscores, within the limit,
    with white space around them. *)
Lemma py_int_grouped (ws1 body ws2 : string) :
  string_forall int_space ws1 = true ->
  string_forall int_space ws2 = true ->
  digit_groups body = true ->
  (count_digits body <= int_max_str_digits)%nat ->
  py_int (ws1 ++ body ++ ws2) = inr (grouped_value body).
Proof.
  intros H1 H2 Hb Hn. apply Nat.leb_le in Hn. unfold py_int.
  rewrite (skip_space_app ws1 _ H1).
  pose proof (parse_grouped body ws2 Hb H2) as P.
  destruct (digit_groups_head body ws2 Hb) as (c & r & E & D).
  rewrite E in *. cbn [skip_space]. rewrite (digit_not_space c D).
  rewrite (digit_not_char c "+" D), (digit_not_char c "-" D)
    by (left; reflexivity).
  rewrite P, Hn, (skip_space_all ws2 H2). reflexivity.
Qed.

(** ... and a sign in front of the digits. *)
Lemma py_int_signed (ws1 body ws2 : string) (negative : bool) :
  string_forall int_space ws1 = true ->
  string_forall int_space ws2 = true ->
  digit_groups body = true ->
  (count_digits body <= int_max_str_digits)%nat ->
  py_int (ws1 ++ String (if negative then "-" else "+")%char (body ++ ws2))
  = inr (if negative then - grouped_value body else grouped_value body).
Proof.
  intros H1 H2 Hb Hn. apply Nat.leb_le in Hn. unfold py_int.
  rewrite (skip_space_app ws1 _ H1).
  pose proof (parse_grouped body ws2 Hb H2) as P.
  destruct negative.
  - change (skip_space (String "-" (body ++ ws2))) with (String "-" (body ++ ws2)).
    cbn [Ascii.eqb Bool.eqb]. cbv iota beta.
    rewrite P, Hn, (skip_space_all ws2 H2). reflexivity.
  - change (skip_space (String "+" (body ++ ws2))) with (String "+" (body ++ ws2)).
    cbn [Ascii.eqb Bool.eqb]. cbv iota beta.
    rewrite P, Hn, (skip_space_all ws2 H2). reflexivity.
Qed.

(** The examples of the specification. *)
Example check_2_0_0_vs_1_9_9 :
  result_of (is_version_compatible (VStr "2.0.0") "1.9.9")
  = inl (Incompatible Major "2.0.0" "1.9.9").
Proof. reflexivity. Qed.

Example check_1_5_0_vs_1_4_9 :
  result_of (is_version_compatible (VStr "1.5.0") "1.4.9")
  = inl (Incompatible Minor "1.5.0" "1.4.9").
Proof. reflexivity. Qed.

Example check_1_4_9_vs_1_5_0 :
  result_of (is_version_compatible (VStr "1.4.9") "1.5.0") = inr true.
Proof. reflexivity. Qed.

Example check_1_2_99_vs_1_2_0 :
  result_of (is_version_compatible (VStr "1.2.99") "1.2.0") = inr true.
Proof. reflexivity. Qed.

Example check_1_2_vs_1_2_0 :
  result_of (is_version_compatible (VStr "1.2") "1.2.0") = inl (NotEnoughValues 2).
Proof. reflexivity. Qed.

(** C1, as the specification states it, fails: [int] refuses a component
    of more than 4300 digits, so a well-formed version with such a major
    component is a format error although its major is the larger one. *)
Lemma long_major_is_format_error :
  (exists cM, spec_parse_version (replicate 4301 "1" ++ ".0.0") = Some (cM, 0, 0) /\
              (cM >? 1) = true) /\
  spec_parse_version "1.0.0" = Some (1, 0, 0) /\
  result_of (is_version_compatible (VStr (replicate 4301 "1" ++ ".0.0")) "1.0.0")
  = inl (InvalidLiteral (replicate 4301 "1")).
Proof.
  split; [|split].
  - eexists. split; vm_compute; reflexivity.
  - reflexivity.
  - vm_compute. reflexivity.
Qed.

(** C1, amended.  For well-formed versions (three dot-separated runs of
    digits) whose components are within the digit limit of [int], the
    check raises the incompatibility error for a major mismatch, carrying
    both version strings, when the configured major is the larger one;
    raises it for a minor mismatch when the majors are equal and the
    configured minor is the larger one; and returns [True] otherwise.  The
    patch numbers [cp] and [ap] do not occur in the outcome. *)
Theorem check_major_minor_rule
  (cv av : string) (cM cm cp aM am ap : Z) (st : state) :
  spec_parse_version cv = Some (cM, cm, cp) ->
  spec_parse_version av = Some (aM, am, ap) ->
  within_digit_limit cv = true ->
  within_digit_limit av = true ->
  fst (is_version_compatible (VStr cv) av st) =
    if cM >? aM then inl (Incompatible Major cv av)
    else if (cM =? aM) && (cm >? am) then inl (Incompatible Minor cv av)
    else inr true.
Proof.
  intros Hc Ha Lc La. rewrite is_version_compatible_result.
  apply comparator_well_formed with (cp := cp) (ap := ap); assumption.
Qed.

Lemma check_major_minor_rule_witness :
  fst (is_version_compatible (VStr "1.5.7") "1.4.9" initial_state)
  = inl (Incompatible Minor "1.5.7" "1.4.9").
Proof.
  exact (check_major_minor_rule "1.5.7" "1.4.9" 1 5 7 1 4 9 initial_state
           eq_refl eq_refl eq_refl eq_refl).
Defined.

(** C2, as the specification states it, fails: a component with a minus
    sign is not a non-negative integer, yet the check accepts it. *)
Lemma negative_component_accepted :
  spec_parse_version "-1.0.0" = None /\
  int_literal "-1" = true /\
  result_of (is_version_compatible (VStr "-1.0.0") "1.0.0") = inr true.
Proof. repeat split. Qed.

(** C2, amended.  The check fails with a [ValueError] (the invalid-format
    error) exactly when one of the two strings does not split on "." into
    three components that [int] accepts, whichever string it is.  [int]
    accepts at most 4300 decimal digits, which single underscores may
    separate, with white space around them and an optional sign "+" or
    "-" in front; with the minus sign the component is the negative
    number. *)
Theorem format_error_iff (cv av : string) (st : state) :
  ((exists e, fst (is_version_compatible (VStr cv) av st) = inl e /\
              is_ValueError e = true)
   <-> three_int_literals cv && three_int_literals av = false) /\
  (forall ws1 body ws2,
      string_forall int_space ws1 = true ->
      string_forall int_space ws2 = true ->
      digit_groups body = true ->
      (count_digits body <= int_max_str_digits)%nat ->
      py_int (ws1 ++ body ++ ws2) = inr (grouped_value body) /\
      py_int (ws1 ++ String "+" (body ++ ws2)) = inr (grouped_value body) /\
      py_int (ws1 ++ String "-" (body ++ ws2)) = inr (- grouped_value body)).
Proof.
  split.
  - rewrite is_version_compatible_result.
    unfold comparator_result, py_split.
    pose proof (unpack3_split cv) as Hc. pose proof (unpack3_split av) as Ha.
    destruct (three_int_literals cv); destruct (three_int_literals av); simpl.
    + destruct Hc as [[[cM cm] cp] ->]. destruct Ha as [[[aM am] ap] ->].
      split; [|discriminate]. intros [e [He Hv]].
      destruct (cM >? aM); [injection He as <-; discriminate|].
      destruct ((cM =? aM) && (cm >? am));
        [injection He as <-; discriminate | discriminate].
    + destruct Hc as [[[cM cm] cp] ->]. destruct Ha as [e Ha]. rewrite Ha.
      split; [reflexivity|]. intros _. exists e. split; [reflexivity|].
      apply (unpack3_error _ _ Ha).
    + destruct Hc as [e Hc]. rewrite Hc.
      split; [reflexivity|]. intros _. exists e. split; [reflexivity|].
      apply (unpack3_error _ _ Hc).
    + destruct Hc as [e Hc]. rewrite Hc.
      split; [reflexivity|]. intros _. exists e. split; [reflexivity|].
      apply (unpack3_error _ _ Hc).
  - intros ws1 body ws2 H1 H2 Hb Hn. split; [|split].
    + apply py_int_grouped; assumption.
    + apply (py_int_signed ws1 body ws2 false); assumption.
    + apply (py_int_signed ws1 body ws2 true); assumption.
Qed.

Lemma format_error_iff_witness :
  (exists e, fst (is_version_compatible (VStr "1.2") "1.2.0" initial_state) = inl e /\
             is_ValueError e = true) /\
  py_int " -1_000 " = inr (-1000).
Proof.
  split.
  - apply (proj1 (format_error_iff "1.2" "1.2.0" initial_state)). reflexivity.
  - apply (proj2 (format_error_iff "" "" initial_state) " " "1_000" " ");
      try reflexivity.
    apply Nat.leb_le. reflexivity.
Defined.

(** C7, as the specification states it, fails in its second part: two
    well-formed configured versions that differ only in patch give
    different outcomes when one patch has more than 4300 digits. *)
Lemma long_patch_changes_outcome :
  spec_parse_version "1.0.0" = Some (1, 0, 0) /\
  (exists cp, spec_parse_version ("1.0." ++ replicate 4301 "7") = Some (1, 0, cp)) /\
  outcome_of (result_of (is_version_compatible (VStr "1.0.0") "1.0.0"))
  = Compatible /\
  outcome_of (result_of (is_version_compatible
                           (VStr ("1.0." ++ replicate 4301 "7")) "1.0.0"))
  = FormatError.
Proof.
  split; [reflexivity|]. split; [|split].
  - eexists. vm_compute. reflexivity.
  - reflexivity.
  - vm_compute. reflexivity.
Qed.

(** C7, amended.  The result of the check is a function of the two strings
    alone: the logger state it runs in does not change it.  For
    well-formed versions whose components are within the digit limit of
    [int], the outcome (compatible, major mismatch or minor mismatch) is
    the same for any two pairs of versions that agree on major and minor,
    whatever their patch numbers. *)
Theorem check_pure_and_patch_blind :
  (forall cv av st st',
      fst (is_version_compatible (VStr cv) av st)
      = fst (is_version_compatible (VStr cv) av st')) /\
  (forall cv cv' av av' cM cm cp cp' aM am ap ap' st st',
      spec_parse_version cv = Some (cM, cm, cp) ->
      spec_parse_version cv' = Some (cM, cm, cp') ->
      spec_parse_version av = Some (aM, am, ap) ->
      spec_parse_version av' = Some (aM, am, ap') ->
      within_digit_limit cv = true ->
      within_digit_limit cv' = true ->
      within_digit_limit av = true ->
      within_digit_limit av' = true ->
      outcome_of (fst (is_version_compatible (VStr cv) av st))
      = outcome_of (fst (is_version_compatible (VStr cv') av' st'))).
Proof.
  split.
  - intros. now rewrite !is_version_compatible_result.
  - intros cv cv' av av' cM cm cp cp' aM am ap ap' st st' H1 H2 H3 H4 L1 L2 L3 L4.
    rewrite !is_version_compatible_result.
    rewrite (comparator_well_formed cv av cM cm cp aM am ap H1 H3 L1 L3).
    rewrite (comparator_well_formed cv' av' cM cm cp' aM am ap' H2 H4 L2 L4).
    destruct (cM >? aM); [reflexivity|].
    destruct ((cM =? aM) && (cm >? am)); reflexivity.
Qed.

Lemma check_pure_and_patch_blind_witness :
  outcome_of (fst (is_version_compatible (VStr "1.2.99") "1.2.0" initial_state))
  = outcome_of (fst (is_version_compatible (VStr "1.2.3") "1.2.41"
                       (mkState DEBUG [Stdout "x"]))).
Proof.
  exact (proj2 check_pure_and_patch_blind
           "1.2.99" "1.2.3" "1.2.0" "1.2.41" 1 2 99 3 1 2 0 41
           initial_state (mkState DEBUG [Stdout "x"])
           eq_refl eq_refl eq_refl eq_refl eq_refl eq_refl eq_refl eq_refl).
Defined.

(** C8.  Whenever the check returns, it returns [True]: incompatibility
    and malformed input are always raised, never returned as [False]. *)
Theorem check_returns_only_true
  (v : pyval) (av : string) (st st' : state) (b : bool) :
  is_version_compatible v av st = (inr b, st') -> b = true.
Proof.
  intros H. apply (comparator_result_true v av).
  rewrite <- (is_version_compatible_result v av st), H. reflexivity.
Qed.

Lemma check_returns_only_true_witness :
  exists b st',
    is_version_compatible (VStr "1.0.0") "1.0.0" initial_state = (inr b, st') /\
    b = true.
Proof.
  eexists. eexists. split.
  - reflexivity.
  - eapply (check_returns_only_true (VStr "1.0.0") "1.0.0" initial_state).
    reflexivity.
Defined.

(** Well-formed version strings exist for every three runs of digits. *)
Lemma split_digits_dot (a r : string) :
  all_digits a = true ->
  split "." (a ++ String "." r) = a :: split "." r.
Proof.
  induction a as [|c a IH]; simpl; intros H.
  - reflexivity.
  - apply andb_true_iff in H. destruct H as [Hc Ha].
    rewrite (digit_not_char c "." Hc) by (left; reflexivity).
    rewrite (IH Ha). reflexivity.
Qed.

Lemma split_digits (a : string) : all_digits a = true -> split "." a = [a].
Proof.
  induction a as [|c a IH]; simpl; intros H.
  - reflexivity.
  - apply andb_true_iff in H. destruct H as [Hc Ha].
    rewrite (digit_not_char c "." Hc) by (left; reflexivity).
    rewrite (IH Ha). reflexivity.
Qed.

Lemma decimal_all_digits (s : string) : decimal s = true -> all_digits s = true.
Proof. destruct s; [discriminate | trivial]. Qed.

Lemma spec_parse_version_digits (a b c : string) :
  decimal a = true -> decimal b = true -> decimal c = true ->
  spec_parse_version (a ++ "." ++ b ++ "." ++ c)
  = Some (decimal_value a, decimal_value b, decimal_value c).
Proof.
  intros Ha Hb Hc. unfold spec_parse_version.
  change (a ++ "." ++ b ++ "." ++ c)
    with (a ++ String "." (b ++ String "." c)).
  rewrite (split_digits_dot a _ (decimal_all_digits a Ha)).
  rewrite (split_digits_dot b _ (decimal_all_digits b Hb)).
  rewrite (split_digits c (decimal_all_digits c Hc)).
  rewrite Ha, Hb, Hc. reflexivity.
Qed.

(** ** Standard output is written by [print] only *)

Lemma stdout_lines_app (l l' : list event) :
  stdout_lines (l ++ l') = (stdout_lines l ++ stdout_lines l')%list.
Proof.
  induction l as [|ev l IH]; simpl; [reflexivity|].
  destruct ev; simpl; rewrite ?IH; reflexivity.
Qed.

Lemma silent_ret {A} (a : A) : silent (ret a).
Proof. intros st. reflexivity. Qed.

Lemma silent_raise {A} (e : exn) : silent (@raise A e).
Proof. intros st. reflexivity. Qed.

Lemma silent_lift {A} (r : exn + A) : silent (lift r).
Proof. intros st. reflexivity. Qed.

Lemma silent_logging (lvl : level) (msg : log_msg) : silent (logging lvl msg).
Proof.
  intros st. unfold logging, emit.
  destruct (level_rank (log_level st) <=? level_rank lvl)%nat; simpl;
    [rewrite stdout_lines_app; apply app_nil_r | reflexivity].
Qed.

Lemma silent_emit (ev : event) :
  (forall line, ev <> Stdout line) -> silent (emit ev).
Proof.
  intros H st. unfold emit. simpl. rewrite stdout_lines_app.
  destruct ev; simpl; try apply app_nil_r. now contradiction (H line).
Qed.

Lemma silent_bind {A B} (m : M A) (k : A -> M B) :
  silent m -> (forall a, silent (k a)) -> silent (bind m k).
Proof.
  intros Hm Hk st. unfold bind. specialize (Hm st).
  destruct (m st) as [[e|a] st']; simpl in *; [exact Hm|].
  rewrite (Hk a st'). exact Hm.
Qed.

Lemma silent_try_except {A} (m : M A) (h : exn -> M A) :
  silent m -> (forall e, silent (h e)) -> silent (try_except m h).
Proof.
  intros Hm Hh st. unfold try_except. specialize (Hm st).
  destruct (m st) as [[e|a] st']; simpl in *; [|exact Hm].
  rewrite (Hh e st'). exact Hm.
Qed.

Lemma silent_with_close {A} (path : string) (m : M A) :
  silent m -> silent (with_close path m).
Proof.
  intros Hm st. unfold with_close. specialize (Hm st).
  destruct (m st) as [r st']; simpl in *.
  rewrite stdout_lines_app. simpl. rewrite app_nil_r. exact Hm.
Qed.

Ltac silent_step :=
  first
    [ apply silent_ret | apply silent_raise | apply silent_lift
    | apply silent_logging
    | apply silent_emit; discriminate
    | apply silent_bind; [|intro]
    | apply silent_try_except; [|intro]
    | apply silent_with_close
    | match goal with
      | |- silent (if ?b then _ else _) => destruct b
      | |- silent (match ?x with _ => _ end) => destruct x
      | |- silent (let '(_, _) := ?x in _) => destruct x
      end ].

Lemma silent_is_version_compatible (v : pyval) (av : string) :
  silent (is_version_compatible v av).
Proof. unfold is_version_compatible. repeat silent_step. Qed.

Lemma silent_extract_version (doc : pyval) (key : string) :
  silent (extract_version doc key).
Proof. unfold extract_version, sys_exit. repeat silent_step. Qed.

Lemma extract_version_result (doc : pyval) (key : string) (st : state) :
  fst (extract_version doc key st) = extract_result doc key.
Proof.
  unfold extract_version, extract_result, bind, lift.
  destruct (py_get doc key) as [e|v]; [reflexivity|].
  destruct (truthy v); simpl; [reflexivity|].
  apply (@logging_then_raise pyval).
Qed.

Lemma comparator_result_exception (v : pyval) (av : string) (e : exn) :
  comparator_result v av = inl e -> is_Exception e = true.
Proof.
  unfold comparator_result. destruct (py_split v) as [e'|parts] eqn:E.
  - intros H. injection H as <-.
    destruct v; simpl in E; try discriminate; injection E as <-; reflexivity.
  - destruct (unpack3 parts) as [e'|[[cM cm] cp]] eqn:U.
    + intros H. injection H as <-.
      apply unpack3_error in U. now destruct e'.
    + destruct (unpack3 (split "." av)) as [e'|[[aM am] ap]] eqn:U'.
      * intros H. injection H as <-.
        apply unpack3_error in U'. now destruct e'.
      * destruct (cM >? aM); [intros H; injection H as <-; reflexivity|].
        destruct ((cM =? aM) && (cm >? am));
          [intros H; injection H as <-; reflexivity | discriminate].
Qed.

(** ** The extraction step *)

Lemma logging_error_emits (msg : log_msg) (st : state) :
  logging ERROR msg st
  = (inr tt, mkState (log_level st) (trace st ++ [Log ERROR msg])).
Proof. unfold logging, emit. destruct (log_level st); reflexivity. Qed.

(** C6, as the specification states it, fails: a number stored under the
    key comes back as that number, not as a string, and the comparator
    then fails on its missing [split] where the string "1" would have been
    a format error. *)
Lemma extract_keeps_number :
  dict_get [(VStr "version", VInt 1)] "version" = Some (VInt 1) /\
  truthy (VInt 1) = true /\
  result_of (extract_version (VDict [(VStr "version", VInt 1)]) "version")
  = inr (VInt 1) /\
  (forall s, result_of (extract_version (VDict [(VStr "version", VInt 1)]) "version")
             <> inr (VStr s)) /\
  result_of (is_version_compatible (VInt 1) "1.0.0")
  = inl (NoAttribute "int" "split") /\
  result_of (is_version_compatible (VStr "1") "1.0.0")
  = inl (NotEnoughValues 1).
Proof. repeat split. intros s H. discriminate H. Qed.

(** C6, amended.  A value that is present and truthy is returned as it is,
    without coercion, validation or logging; a string therefore reaches the
    comparator as that string, and any other value makes the comparator
    fail with an error that is neither the format error nor the
    incompatibility error. *)
Theorem extract_returns_value_unchanged
  (entries : list (pyval * pyval)) (key : string) (v : pyval) (st : state) :
  dict_get entries key = Some v ->
  truthy v = true ->
  extract_version (VDict entries) key st = (inr v, st) /\
  ((forall s, v <> VStr s) ->
   forall av st',
   exists e, fst (is_version_compatible v av st') = inl e /\
             is_ValueError e = false /\
             is_VersionIncompatibilityError e = false /\
             is_Exception e = true).
Proof.
  intros Hg Ht. split.
  - unfold extract_version, bind, lift, py_get. rewrite Hg. simpl.
    rewrite Ht. reflexivity.
  - intros Hs av st'. rewrite is_version_compatible_result.
    unfold comparator_result.
    destruct v; simpl; try (eexists; repeat split; reflexivity).
    now contradiction (Hs s).
Qed.

Lemma extract_returns_value_unchanged_witness :
  extract_version (VDict [(VStr "name", VStr "app"); (VStr "version", VFloat (S754_finite false 3 (-1)))])
    "version" initial_state
  = (inr (VFloat (S754_finite false 3 (-1))), initial_state) /\
  exists e, fst (is_version_compatible (VFloat (S754_finite false 3 (-1))) "1.5.0"
                   initial_state) = inl e /\
            is_ValueError e = false /\
            is_VersionIncompatibilityError e = false /\
            is_Exception e = true.
Proof.
  pose proof (extract_returns_value_unchanged
                [(VStr "name", VStr "app");
                 (VStr "version", VFloat (S754_finite false 3 (-1)))]
                "version" (VFloat (S754_finite false 3 (-1))) initial_state
                eq_refl eq_refl) as [H1 H2].
  split; [exact H1|].
  apply H2. intros s H. discriminate H.
Defined.

(** ** The [except] clauses of [main] *)

Lemma silent_main_except (e : exn) : silent (main_except e).
Proof. unfold main_except, sys_exit. repeat silent_step. Qed.

(** Every exception of the pipeline ends in [sys.exit(1)]. *)
Lemma main_except_exits (e : exn) (st : state) :
  is_Exception e = true \/ e = SystemExit 1 ->
  fst (main_except e st) = inl (SystemExit 1).
Proof.
  intros [H| ->]; [|reflexivity].
  unfold main_except, sys_exit.
  destruct (is_FileNotFoundError e); [reflexivity|].
  destruct (is_ValueError e); [reflexivity|].
  destruct (is_VersionIncompatibilityError e); [reflexivity|].
  rewrite H. apply logging_then_raise.
Qed.

Lemma extract_result_error (doc : pyval) (key : string) (e : exn) :
  extract_result doc key = inl e ->
  is_Exception e = true \/ e = SystemExit 1.
Proof.
  unfold extract_result, py_get.
  destruct doc; try (intros H; injection H as <-; left; reflexivity).
  destruct (truthy _); [discriminate|].
  intros H; injection H as <-. right; reflexivity.
Qed.

Section ProgramProperties.

Variable file : Type.
Variable py_open : string -> (lib_class * string) + file.
Variable json_load : file -> (lib_class * string) + pyval.
Variable yaml_safe_load : file -> (lib_class * string) + pyval.

Local Abbreviation load := (load_config py_open json_load yaml_safe_load).
Local Abbreviation loaded := (load_result py_open json_load yaml_safe_load).
Local Abbreviation program := (main py_open json_load yaml_safe_load).
Local Abbreviation process_of := (run py_open json_load yaml_safe_load).
Local Abbreviation piped := (pipeline py_open json_load yaml_safe_load).

Ltac log_cases st :=
  unfold logging, emit; destruct (log_level st); simpl.

Lemma load_config_result (path tag : string) (st : state) :
  fst (load path tag st) = loaded path tag.
Proof.
  unfold load_config, load_result, try_except, bind, with_close, lib_call,
    lib_result, emit, raise, ret.
  destruct (py_open path) as [[c msg]|f]; simpl.
  - destruct c; simpl; try reflexivity; log_cases st; reflexivity.
  - destruct (String.eqb tag "json").
    + destruct (json_load f) as [[c msg]|doc]; simpl.
      * destruct c; simpl; try reflexivity; log_cases st; reflexivity.
      * log_cases st; reflexivity.
    + destruct (String.eqb tag "yaml").
      * destruct (yaml_safe_load f) as [[c msg]|doc]; simpl.
        -- destruct c; simpl; try reflexivity; log_cases st; reflexivity.
        -- log_cases st; reflexivity.
      * simpl. log_cases st; reflexivity.
Qed.

Lemma silent_load_config (path tag : string) : silent (load path tag).
Proof. unfold load_config, lib_call. repeat silent_step. Qed.

Lemma load_result_exception (path tag : string) (e : exn) :
  loaded path tag = inl e -> is_Exception e = true.
Proof.
  unfold load_result, lib_result.
  destruct (py_open path) as [[c msg]|f];
    [intros H; injection H as <-; reflexivity|].
  destruct (String.eqb tag "json");
    [destruct (json_load f) as [[c msg]|doc];
     intros H; try discriminate; injection H as <-; reflexivity|].
  destruct (String.eqb tag "yaml");
    [destruct (yaml_safe_load f) as [[c msg]|doc];
     intros H; try discriminate; injection H as <-; reflexivity|].
  intros H; injection H as <-; reflexivity.
Qed.


(** The whole of [main]: it ends with [sys.exit(1)] unless the pipeline
    succeeds, and prints the success line exactly then. *)
Lemma main_spec (a : args) (st : state) :
  fst (program a st)
  = match piped a with
    | inr _ => inr tt
    | inl _ => inl (SystemExit 1)
    end /\
  stdout_lines (trace (snd (program a st)))
  = (stdout_lines (trace st) ++
     match piped a with
     | inr _ => ["Configuration version is compatible."]
     | inl _ => []
     end)%list.
Proof.
  unfold main, pipeline.
  set (prelude := if verbose a then _ else _).
  assert (Hp : fst (prelude st) = inr tt /\
               stdout_lines (trace (snd (prelude st))) = stdout_lines (trace st)).
  { subst prelude. destruct (verbose a); [|split; reflexivity].
    unfold bind, setLevel, logging, emit. simpl. split; [reflexivity|].
    rewrite stdout_lines_app. apply app_nil_r. }
  unfold bind, try_except. destruct (prelude st) as [r0 st0].
  destruct Hp as [Hr0 Hs0]. simpl in Hr0, Hs0. subst r0. rewrite <- Hs0.
  clear Hs0 prelude.
  pose proof (load_config_result (config_file a) (config_type a) st0) as L.
  pose proof (silent_load_config (config_file a) (config_type a) st0) as SL.
  destruct (load (config_file a) (config_type a) st0) as [r1 st1].
  simpl in L, SL. rewrite <- SL. clear SL. subst r1.
  destruct (loaded (config_file a) (config_type a)) as [e|doc] eqn:EL.
  { split.
    - apply main_except_exits. left. apply (load_result_exception _ _ _ EL).
    - rewrite silent_main_except. symmetry. apply app_nil_r. }
  pose proof (extract_version_result doc (version_key a) st1) as X.
  pose proof (silent_extract_version doc (version_key a) st1) as SX.
  destruct (extract_version doc (version_key a) st1) as [r2 st2].
  simpl in X, SX. rewrite <- SX. clear SX. subst r2.
  destruct (extract_result doc (version_key a)) as [e|v] eqn:EX.
  { split.
    - apply main_except_exits. apply (extract_result_error _ _ _ EX).
    - rewrite silent_main_except. symmetry. apply app_nil_r. }
  pose proof (is_version_compatible_result v (app_version a) st2) as C.
  pose proof (silent_is_version_compatible v (app_version a) st2) as SC.
  destruct (is_version_compatible v (app_version a) st2) as [r3 st3].
  simpl in C, SC. rewrite <- SC. clear SC. subst r3.
  destruct (comparator_result v (app_version a)) as [e|b] eqn:EC.
  { split.
    - apply main_except_exits. left. apply (comparator_result_exception _ _ _ EC).
    - rewrite silent_main_except. symmetry. apply app_nil_r. }
  unfold print, emit. simpl. split; [reflexivity|].
  apply stdout_lines_app.
Qed.

(** Exit status and standard output of a run. *)
Lemma run_spec (a : args) :
  match piped a with
  | inr _ =>
      exit_status (process_of a) = 0 /\
      stdout (process_of a) = ["Configuration version is compatible."]
  | inl _ =>
      exit_status (process_of a) = 1 /\ stdout (process_of a) = []
  end.
Proof.
  unfold run. destruct (main_spec a initial_state) as [R S].
  destruct (program a initial_state) as [r st]. simpl in R, S. simpl.
  rewrite S, R. destruct (piped a); split; reflexivity.
Qed.


(** C4.  A run either succeeds in all three steps, exits with status 0 and
    prints the one success line, or fails in one of them, exits with
    status 1 and prints nothing on standard output. *)
Theorem exit_status_and_stdout (a : args) :
  let ok :=
    exists doc v,
      result_of (load (config_file a) (config_type a)) = inr doc /\
      result_of (extract_version doc (version_key a)) = inr v /\
      result_of (is_version_compatible v (app_version a)) = inr true in
  (ok /\ exit_status (process_of a) = 0 /\
   stdout (process_of a) = ["Configuration version is compatible."]) \/
  (~ ok /\ exit_status (process_of a) = 1 /\ stdout (process_of a) = []).
Proof.
  unfold result_of. pose proof (run_spec a) as R. unfold pipeline in R.
  destruct (loaded (config_file a) (config_type a)) as [e|doc] eqn:EL.
  { right. split; [|exact R]. intros (doc & v & H & _).
    rewrite load_config_result, EL in H. discriminate. }
  destruct (extract_result doc (version_key a)) as [e|v] eqn:EX.
  { right. split; [|exact R]. intros (doc' & v & H & H' & _).
    rewrite load_config_result, EL in H. injection H as <-.
    rewrite extract_version_result, EX in H'. discriminate. }
  destruct (comparator_result v (app_version a)) as [e|b] eqn:EC.
  { right. split; [|exact R]. intros (doc' & v' & H & H' & H'').
    rewrite load_config_result, EL in H. injection H as <-.
    rewrite extract_version_result, EX in H'. injection H' as <-.
    rewrite is_version_compatible_result, EC in H''. discriminate. }
  left. split; [|exact R]. exists doc, v.
  rewrite load_config_result, extract_version_result,
    is_version_compatible_result, EC.
  rewrite (comparator_result_true _ _ _ EC). auto.
Qed.

(** C3.  On a mapping, the extraction step logs the error naming the key
    and leaves through [sys.exit(1)] exactly when the key is absent or its
    value is falsy, and the process then ends with status 1. *)
Theorem missing_version_exits (a : args) (entries : list (pyval * pyval)) :
  let key := version_key a in
  let missing :=
    dict_get entries key = None \/
    (exists v, dict_get entries key = Some v /\ truthy v = false) in
  (forall st,
      extract_version (VDict entries) key st
      = (inl (SystemExit 1),
         mkState (log_level st)
           (trace st ++
            [Log ERROR (Text ("Version key '" ++ key ++
                              "' not found in configuration file."))]))
      <-> missing) /\
  (result_of (load (config_file a) (config_type a)) = inr (VDict entries) ->
   missing ->
   exit_status (process_of a) = 1).
Proof.
  cbv zeta. split.
  - intros st. unfold extract_version, bind, lift, py_get, sys_exit, raise.
    destruct (dict_get entries (version_key a)) as [v|] eqn:G.
    + destruct (truthy v) eqn:T; simpl.
      * split; [discriminate|].
        intros [H|(v' & H & H')]; [discriminate|].
        injection H as <-. congruence.
      * rewrite logging_error_emits. split; [|reflexivity].
        intros _. right. exists v. auto.
    + simpl. rewrite logging_error_emits. split; [|reflexivity].
      intros _. left. reflexivity.
  - intros HL Hm. pose proof (run_spec a) as R. unfold pipeline in R.
    unfold result_of in HL. rewrite load_config_result in HL. rewrite HL in R.
    assert (HX : extract_result (VDict entries) (version_key a)
                 = inl (SystemExit 1)).
    { unfold extract_result, py_get.
      destruct Hm as [->|(v & -> & ->)]; reflexivity. }
    rewrite HX in R. apply R.
Qed.

(** C9.  When the loaded document is not a mapping, the lookup itself
    raises an attribute error; the last clause of [main] catches it, logs
    it as unexpected, and the process ends with status 1 and nothing on
    standard output. *)
Theorem non_mapping_document (a : args) (doc : pyval) :
  result_of (load (config_file a) (config_type a)) = inr doc ->
  (forall entries, doc <> VDict entries) ->
  result_of (extract_version doc (version_key a))
  = inl (NoAttribute (type_name doc) "get") /\
  exit_status (process_of a) = 1 /\
  stdout (process_of a) = [] /\
  exists tr,
    events (process_of a)
    = (tr ++ [Log ERROR (TextExn "An unexpected error occurred: "
                           (NoAttribute (type_name doc) "get"))])%list.
Proof.
  intros HL Hd. unfold result_of in HL. rewrite load_config_result in HL.
  assert (HX : forall st, extract_version doc (version_key a) st
                          = (inl (NoAttribute (type_name doc) "get"), st)).
  { intros st. destruct doc; try reflexivity. now contradiction (Hd entries). }
  split; [unfold result_of; now rewrite HX|].
  pose proof (run_spec a) as R. unfold pipeline in R. rewrite HL in R.
  rewrite <- (extract_version_result doc (version_key a) initial_state), HX in R.
  destruct R as [R1 R2]. split; [exact R1|]. split; [exact R2|].
  unfold run, main. set (prelude := if verbose a then _ else _).
  unfold bind, try_except.
  destruct (prelude initial_state) as [[e0|[]] st0] eqn:E0.
  { subst prelude. destruct (verbose a); discriminate E0. }
  pose proof (load_config_result (config_file a) (config_type a) st0) as L.
  destruct (load (config_file a) (config_type a) st0) as [r1 st1].
  simpl in L. rewrite HL in L. subst r1. rewrite HX.
  unfold main_except, sys_exit, bind, raise. simpl.
  rewrite logging_error_emits. simpl. exists (trace st1). reflexivity.
Qed.

(** C5, amended.  With a format tag other than "json" and "yaml" the
    loader first opens the file.  If that succeeds it raises the
    invalid-type error, having opened and closed the file and parsed
    nothing; if it fails, the loader raises the error of [open]. *)
Theorem unsupported_format (path tag : string) (st : state) :
  tag <> "json" -> tag <> "yaml" ->
  match py_open path with
  | inr f =>
      load path tag st
      = (inl InvalidConfigType,
         mkState (log_level st)
           (trace st ++ [FileOpen path; FileClose path;
                         Log ERROR (TextExn "" InvalidConfigType)]))
  | inl (c, msg) =>
      fst (load path tag st) = inl (LibError c msg) /\
      exists tr, trace (snd (load path tag st)) = (trace st ++ FileOpen path :: tr)%list
  end.
Proof.
  intros Hj Hy.
  apply String.eqb_neq in Hj. apply String.eqb_neq in Hy.
  unfold load_config, try_except, bind, with_close, lib_call, emit, raise, ret.
  destruct (py_open path) as [[c msg]|f]; simpl.
  - destruct c; simpl; unfold bind;
      rewrite ?logging_error_emits; simpl; rewrite <- ?app_assoc; simpl;
      eauto.
  - rewrite Hj, Hy. simpl. unfold bind. rewrite logging_error_emits. simpl.
    rewrite <- !app_assoc. reflexivity.
Qed.

(** C10.  With a format tag argparse accepts, the loader never raises the
    invalid-type error. *)
Theorem cli_format_never_invalid (path tag : string) (st : state) :
  In tag config_type_choices ->
  fst (load path tag st) <> inl InvalidConfigType.
Proof.
  intros H. rewrite load_config_result. unfold load_result, lib_result.
  destruct (py_open path) as [[c msg]|f]; [discriminate|].
  destruct H as [<-|[<-|[]]]; simpl.
  - destruct (json_load f) as [[c msg]|doc]; discriminate.
  - destruct (yaml_safe_load f) as [[c msg]|doc]; discriminate.
Qed.

End ProgramProperties.

(** ** Runs in the small worlds *)

Example run_compatible :
  run_with (VDict [(VStr "version", VStr "1.0.0")])
    (mkArgs "config.json" "1.0.0" "version" "json" false)
  = mkProcess 0 ["Configuration version is compatible."]
      [FileOpen "config.json"; FileParse Json "config.json";
       FileClose "config.json";
       Log INFO (Text "Configuration version 1.0.0 is compatible with application version 1.0.0.");
       Stdout "Configuration version is compatible."].
Proof. reflexivity. Qed.

Example run_incompatible :
  let p := run_with (VDict [(VStr "version", VStr "2.0.0")])
             (mkArgs "config.json" "1.0.0" "version" "json" false) in
  exit_status p = 1 /\ stdout p = [].
Proof. split; reflexivity. Qed.

Lemma missing_version_exits_witness :
  exit_status
    (run_with (VDict [(VStr "version", VStr "")])
       (mkArgs "config.yaml" "1.0.0" "version" "yaml" false)) = 1.
Proof.
  apply (proj2 (missing_version_exits string world_open
                  (world_parse (VDict [(VStr "version", VStr "")]))
                  (world_parse (VDict [(VStr "version", VStr "")]))
                  (mkArgs "config.yaml" "1.0.0" "version" "yaml" false)
                  [(VStr "version", VStr "")])).
  - reflexivity.
  - right. exists (VStr ""). split; reflexivity.
Defined.

Lemma non_mapping_document_witness :
  let p := run_with VNone (mkArgs "empty.yaml" "1.0.0" "version" "yaml" false) in
  exit_status p = 1 /\ stdout p = [].
Proof.
  destruct (non_mapping_document string world_open
              (world_parse VNone) (world_parse VNone)
              (mkArgs "empty.yaml" "1.0.0" "version" "yaml" false) VNone)
    as (_ & H1 & H2 & _).
  - reflexivity.
  - intros entries H. discriminate H.
  - split; [exact H1 | exact H2].
Defined.

(** C5, as the specification states it, fails: the loader opens the file
    before it looks at the format tag.  For a path that cannot be opened
    the error is the one of [open], not the invalid-type error; for a path
    that can, the file has been opened and closed by the time the
    invalid-type error is raised. *)
Lemma unsupported_format_opens_first :
  load_config empty_open (world_parse VNone) (world_parse VNone)
    "config.toml" "toml" initial_state
  = (inl (LibError CFileNotFoundError "No such file or directory"),
     mkState INFO
       [FileOpen "config.toml";
        Log ERROR (Text "Configuration file not found: config.toml")]) /\
  load_config world_open (world_parse VNone) (world_parse VNone)
    "config.toml" "toml" initial_state
  = (inl InvalidConfigType,
     mkState INFO
       [FileOpen "config.toml"; FileClose "config.toml";
        Log ERROR (TextExn "" InvalidConfigType)]).
Proof. split; reflexivity. Qed.

Lemma unsupported_format_witness :
  load_config world_open (world_parse VNone) (world_parse VNone)
    "config.toml" "toml" initial_state
  = (inl InvalidConfigType,
     mkState INFO
       [FileOpen "config.toml"; FileClose "config.toml";
        Log ERROR (TextExn "" InvalidConfigType)]).
Proof.
  pose proof (unsupported_format string world_open
                (world_parse VNone) (world_parse VNone)
                "config.toml" "toml" initial_state) as H.
  simpl in H. apply H; discriminate.
Defined.

Lemma cli_format_never_invalid_witness :
  fst (load_config empty_open (world_parse VNone) (world_parse VNone)
         "config.yaml" "yaml" initial_state)
  <> inl InvalidConfigType.
Proof.
  apply (cli_format_never_invalid string empty_open
           (world_parse VNone) (world_parse VNone)).
  right. left. reflexivity.
Defined.

(** * Further properties of the code *)

(** ** The compatibility relation *)

Lemma comparator_true_iff (cv av : string) (cM cm cp aM am ap : Z) :
  unpack3 (split "." cv) = inr (cM, cm, cp) ->
  unpack3 (split "." av) = inr (aM, am, ap) ->
  comparator_result (VStr cv) av = inr true <->
  (cM < aM \/ (cM = aM /\ cm <= am)).
Proof.
  intros Hc Ha. unfold comparator_result, py_split. rewrite Hc, Ha.
  rewrite !Z.gtb_ltb.
  destruct (Z.ltb_spec aM cM); [split; [discriminate | lia]|].
  destruct (Z.eqb_spec cM aM); destruct (Z.ltb_spec am cm); simpl;
    split; try discriminate; try reflexivity; lia.
Qed.

Lemma comparator_true_parts (cv av : string) :
  comparator_result (VStr cv) av = inr true ->
  exists cM cm cp aM am ap,
    unpack3 (split "." cv) = inr (cM, cm, cp) /\
    unpack3 (split "." av) = inr (aM, am, ap).
Proof.
  unfold comparator_result, py_split.
  destruct (unpack3 (split "." cv)) as [e|[[cM cm] cp]]; [discriminate|].
  destruct (unpack3 (split "." av)) as [e|[[aM am] ap]]; [discriminate|].
  intros _. now exists cM, cm, cp, aM, am, ap.
Qed.

Lemma three_int_literals_unpack3 (s : string) :
  three_int_literals s = true ->
  exists major minor patch, unpack3 (split "." s) = inr (major, minor, patch).
Proof.
  intros H. pose proof (unpack3_split s) as U. rewrite H in U.
  destruct U as [[[major minor] patch] U]. now exists major, minor, patch.
Qed.

(** X1.  Every version string the check accepts is compatible with
    itself. *)
Theorem check_reflexive (s : string) (st : state) :
  three_int_literals s = true ->
  fst (is_version_compatible (VStr s) s st) = inr true.
Proof.
  intros H. rewrite is_version_compatible_result.
  destruct (three_int_literals_unpack3 s H) as (major & minor & patch & U).
  apply (comparator_true_iff s s _ _ _ _ _ _ U U). lia.
Qed.

Lemma check_reflexive_witness :
  fst (is_version_compatible (VStr " +1.2_0.-3") " +1.2_0.-3" initial_state)
  = inr true.
Proof. apply check_reflexive. reflexivity. Defined.

(** X2.  Compatibility is transitive: if [a] passes against [b] and [b]
    passes against [c], then [a] passes against [c]. *)
Theorem check_transitive (a b c : string) (st1 st2 st3 : state) :
  fst (is_version_compatible (VStr a) b st1) = inr true ->
  fst (is_version_compatible (VStr b) c st2) = inr true ->
  fst (is_version_compatible (VStr a) c st3) = inr true.
Proof.
  rewrite !is_version_compatible_result. intros Hab Hbc.
  destruct (comparator_true_parts a b Hab)
    as (aM & am & ap & bM & bm & bp & Ua & Ub).
  destruct (comparator_true_parts b c Hbc)
    as (bM' & bm' & bp' & cM & cm & cp & Ub' & Uc).
  rewrite Ub in Ub'. injection Ub' as <- <- <-.
  apply (comparator_true_iff a b _ _ _ _ _ _ Ua Ub) in Hab.
  apply (comparator_true_iff b c _ _ _ _ _ _ Ub Uc) in Hbc.
  apply (comparator_true_iff a c _ _ _ _ _ _ Ua Uc). lia.
Qed.

Lemma check_transitive_witness :
  fst (is_version_compatible (VStr "1.2.9") "2.0.0" initial_state) = inr true.
Proof.
  apply (check_transitive "1.2.9" "1.3.0" "2.0.0" initial_state initial_state);
    reflexivity.
Defined.

(** X3.  Any two accepted version strings are comparable: one of them
    passes against the other. *)
Theorem check_total (a b : string) (st st' : state) :
  three_int_literals a = true ->
  three_int_literals b = true ->
  fst (is_version_compatible (VStr a) b st) = inr true \/
  fst (is_version_compatible (VStr b) a st') = inr true.
Proof.
  intros Ha Hb. rewrite !is_version_compatible_result.
  destruct (three_int_literals_unpack3 a Ha) as (aM & am & ap & Ua).
  destruct (three_int_literals_unpack3 b Hb) as (bM & bm & bp & Ub).
  rewrite (comparator_true_iff a b _ _ _ _ _ _ Ua Ub).
  rewrite (comparator_true_iff b a _ _ _ _ _ _ Ub Ua). lia.
Qed.

Lemma check_total_witness :
  fst (is_version_compatible (VStr "3.1.0") "2.9.9" initial_state) = inr true \/
  fst (is_version_compatible (VStr "2.9.9") "3.1.0" initial_state) = inr true.
Proof. apply check_total; reflexivity. Defined.

(** X4.  Two versions that pass against each other are interchangeable:
    against any third version, on either side of the check, they give the
    same outcome. *)
Theorem check_mutual_interchangeable (a b c : string) (st1 st2 st3 st4 : state) :
  fst (is_version_compatible (VStr a) b st1) = inr true ->
  fst (is_version_compatible (VStr b) a st2) = inr true ->
  outcome_of (fst (is_version_compatible (VStr a) c st3))
  = outcome_of (fst (is_version_compatible (VStr b) c st4)) /\
  outcome_of (fst (is_version_compatible (VStr c) a st3))
  = outcome_of (fst (is_version_compatible (VStr c) b st4)).
Proof.
  rewrite !is_version_compatible_result. intros Hab Hba.
  destruct (comparator_true_parts a b Hab)
    as (aM & am & ap & bM & bm & bp & Ua & Ub).
  apply (comparator_true_iff a b _ _ _ _ _ _ Ua Ub) in Hab.
  apply (comparator_true_iff b a _ _ _ _ _ _ Ub Ua) in Hba.
  assert (aM = bM /\ am = bm) as [-> ->] by lia.
  unfold comparator_result, py_split, text_of. rewrite Ua, Ub.
  destruct (unpack3 (split "." c)) as [e|[[cM cm] cp]]; [split; reflexivity|].
  split.
  - destruct (bM >? cM); [reflexivity|].
    destruct ((bM =? cM) && (bm >? cm)); reflexivity.
  - destruct (cM >? bM); [reflexivity|].
    destruct ((cM =? bM) && (cm >? bm)); reflexivity.
Qed.

Lemma check_mutual_interchangeable_witness :
  outcome_of (fst (is_version_compatible (VStr "1.2.3") "1.1.0" initial_state))
  = outcome_of (fst (is_version_compatible (VStr "01.2.77") "1.1.0" initial_state)) /\
  outcome_of (fst (is_version_compatible (VStr "1.1.0") "1.2.3" initial_state))
  = outcome_of (fst (is_version_compatible (VStr "1.1.0") "01.2.77" initial_state)).
Proof.
  apply (check_mutual_interchangeable "1.2.3" "01.2.77" "1.1.0"
           initial_state initial_state); reflexivity.
Defined.

(** X5.  The configured version is validated first: when it is not three
    components [int] accepts, the exception raised is the same whatever the
    application version is, well-formed or not. *)
Theorem config_version_validated_first (cv av av' : string) (st st' : state) :
  three_int_literals cv = false ->
  fst (is_version_compatible (VStr cv) av st)
  = fst (is_version_compatible (VStr cv) av' st').
Proof.
  intros H. rewrite !is_version_compatible_result.
  pose proof (unpack3_split cv) as U. rewrite H in U. destruct U as [e U].
  unfold comparator_result, py_split. rewrite U. reflexivity.
Qed.

Lemma config_version_validated_first_witness :
  fst (is_version_compatible (VStr "1.x.0") "1.0.0" initial_state)
  = fst (is_version_compatible (VStr "1.x.0") "not a version" initial_state).
Proof. apply config_version_validated_first. reflexivity. Defined.

(** ** What the check logs *)

(** The state after a check that returns. *)
Lemma is_version_compatible_success (v : pyval) (av : string) (st : state) (b : bool) :
  (level_rank (log_level st) <= level_rank INFO)%nat ->
  comparator_result v av = inr b ->
  snd (is_version_compatible v av st)
  = mkState (log_level st)
      (trace st ++
       [Log INFO (Text ("Configuration version " ++ text_of v ++
                        " is compatible with application version " ++
                        av ++ "."))]).
Proof.
  intros Hl. unfold comparator_result, is_version_compatible, try_except, bind,
    lift, raise, ret.
  destruct (py_split v) as [e|parts]; [discriminate|].
  destruct (unpack3 parts) as [e|[[cM cm] cp]]; [discriminate|].
  destruct (unpack3 (split "." av)) as [e|[[aM am] ap]]; [discriminate|].
  destruct (cM >? aM); [discriminate|].
  destruct ((cM =? aM) && (cm >? am)); [discriminate|].
  intros _. unfold logging, emit.
  destruct (log_level st); simpl in *; try reflexivity; lia.
Qed.

(** X6.  With the threshold at DEBUG or INFO, the only values the program
    sets, the check leaves the threshold alone and appends exactly one log
    record: INFO on success, ERROR with the fixed text for a format error,
    WARNING carrying the exception for an incompatibility; an error of any
    other kind is not logged by the check. *)
Theorem check_logs_once (v : pyval) (av : string) (st : state) :
  (level_rank (log_level st) <= level_rank INFO)%nat ->
  snd (is_version_compatible v av st)
  = mkState (log_level st)
      (trace st ++
       match fst (is_version_compatible v av st) with
       | inr _ =>
           [Log INFO (Text ("Configuration version " ++ text_of v ++
                            " is compatible with application version " ++
                            av ++ "."))]
       | inl e =>
           if is_ValueError e then
             [Log ERROR (Text "Invalid version format. Expected major.minor.patch.")]
           else if is_VersionIncompatibilityError e then
             [Log WARNING (TextExn "" e)]
           else []
       end).
Proof.
  intros Hl.
  assert (HI : forall msg, logging INFO msg st
               = (inr tt, mkState (log_level st) (trace st ++ [Log INFO msg]))).
  { intros msg. unfold logging, emit.
    destruct (log_level st); simpl in *; try reflexivity; lia. }
  assert (HW : forall msg, logging WARNING msg st
               = (inr tt, mkState (log_level st) (trace st ++ [Log WARNING msg]))).
  { intros msg. unfold logging, emit.
    destruct (log_level st); simpl in *; try reflexivity; lia. }
  assert (Hst : st = mkState (log_level st) (trace st ++ [])).
  { rewrite app_nil_r. destruct st; reflexivity. }
  unfold is_version_compatible, try_except, bind, lift, raise, ret.
  destruct (py_split v) as [e|parts] eqn:E.
  { destruct v; simpl in E; try discriminate; injection E as <-; simpl;
      exact Hst. }
  destruct (unpack3 parts) as [e|[[cM cm] cp]] eqn:U.
  { rewrite (unpack3_error _ _ U), logging_error_emits. simpl.
    rewrite (unpack3_error _ _ U). reflexivity. }
  destruct (unpack3 (split "." av)) as [e|[[aM am] ap]] eqn:U'.
  { rewrite (unpack3_error _ _ U'), logging_error_emits. simpl.
    rewrite (unpack3_error _ _ U'). reflexivity. }
  destruct (cM >? aM); [simpl; rewrite HW; reflexivity|].
  destruct ((cM =? aM) && (cm >? am)); [simpl; rewrite HW; reflexivity|].
  rewrite HI. reflexivity.
Qed.

Lemma check_logs_once_witness :
  snd (is_version_compatible (VStr "1.5.0") "1.4.9" (mkState DEBUG [Stdout "x"]))
  = mkState DEBUG
      [Stdout "x"; Log WARNING (TextExn "" (Incompatible Minor "1.5.0" "1.4.9"))].
Proof.
  apply (check_logs_once (VStr "1.5.0") "1.4.9" (mkState DEBUG [Stdout "x"])).
  simpl. lia.
Defined.

(** ** The shape of an accepted version string *)

Lemma comparator_format_error (cv av : string) :
  three_int_literals cv = false \/ three_int_literals av = false ->
  exists e, comparator_result (VStr cv) av = inl e /\ is_ValueError e = true.
Proof.
  intros H. unfold comparator_result, py_split.
  pose proof (unpack3_split cv) as Uc. pose proof (unpack3_split av) as Ua.
  destruct (three_int_literals cv).
  - destruct H as [H|H]; [discriminate|]. rewrite H in Ua.
    destruct Uc as [[[cM cm] cp] ->]. destruct Ua as [e Ua]. rewrite Ua.
    exists e. split; [reflexivity | apply (unpack3_error _ _ Ua)].
  - destruct Uc as [e Uc]. rewrite Uc.
    exists e. split; [reflexivity | apply (unpack3_error _ _ Uc)].
Qed.

Lemma digit_value_is_digit (c : ascii) (d : Z) :
  digit_value c = Some d -> is_digit c = true.
Proof.
  unfold digit_value, is_digit.
  destruct ((48 <=? code c) && (code c <=? 57)); [reflexivity | discriminate].
Qed.

Lemma literal_digit (c : ascii) : is_digit c = true -> literal_char c = true.
Proof. unfold literal_char. intros ->. reflexivity. Qed.

Lemma literal_space (c : ascii) : int_space c = true -> literal_char c = true.
Proof. unfold literal_char. intros ->. now rewrite orb_true_r. Qed.

Lemma skip_space_literal (s : string) :
  string_forall literal_char (skip_space s) = true ->
  string_forall literal_char s = true.
Proof.
  induction s as [|c r IH]; simpl; [trivial|].
  destruct (int_space c) eqn:Sp; [|trivial].
  intros H. rewrite (literal_space c Sp). apply IH, H.
Qed.

Lemma skip_space_empty (s : string) :
  skip_space s = EmptyString -> string_forall literal_char s = true.
Proof.
  induction s as [|c r IH]; simpl; [trivial|].
  destruct (int_space c) eqn:Sp; [|discriminate].
  intros H. rewrite (literal_space c Sp). apply IH, H.
Qed.

Lemma scan_digits_literal (s : string) :
  forall b acc k n digits rest,
    scan_digits b acc k s = Some (n, digits, rest) ->
    string_forall literal_char rest = true ->
    string_forall literal_char s = true.
Proof.
  induction s as [|c r IH]; cbn [scan_digits string_forall];
    intros b acc k n digits rest H Hr.
  - reflexivity.
  - destruct (digit_value c) as [d|] eqn:D.
    + rewrite (literal_digit c (digit_value_is_digit c d D)).
      apply (IH _ _ _ _ _ _ H Hr).
    + destruct b; [discriminate|].
      destruct (Ascii.eqb_spec c "_") as [->|].
      * apply (IH _ _ _ _ _ _ H Hr).
      * injection H as _ _ <-. exact Hr.
Qed.

Lemma parse_digits_literal (s : string) (n : Z) (digits : nat) (rest : string) :
  parse_digits s = Some (n, digits, rest) ->
  string_forall literal_char rest = true ->
  string_forall literal_char s = true.
Proof.
  destruct s as [|c r]; cbn [parse_digits string_forall]; [discriminate|].
  destruct (digit_value c) as [d|] eqn:D; [|discriminate].
  intros H Hr. rewrite (literal_digit c (digit_value_is_digit c d D)).
  apply (scan_digits_literal _ _ _ _ _ _ _ H Hr).
Qed.

Lemma parse_tail_literal (t orig : string) (negative : bool) :
  match
    match parse_digits t with
    | Some (n, digits, rest) =>
        if (digits <=? int_max_str_digits)%nat then
          match skip_space rest with
          | EmptyString => inr (if negative then - n else n)
          | String _ _ => inl (InvalidLiteral orig)
          end
        else inl (InvalidLiteral orig)
    | None => inl (InvalidLiteral orig)
    end
  with
  | inr _ => true
  | inl _ => false
  end = true ->
  string_forall literal_char t = true.
Proof.
  destruct (parse_digits t) as [[[n digits] rest]|] eqn:E; [|discriminate].
  destruct (digits <=? int_max_str_digits)%nat; [|discriminate].
  destruct (skip_space rest) eqn:R; [|discriminate].
  intros _. apply (parse_digits_literal _ _ _ _ E), skip_space_empty, R.
Qed.

(** A component [int] accepts is made of digits, white space, signs and
    underscores only. *)
Lemma int_literal_chars (s : string) :
  int_literal s = true -> string_forall literal_char s = true.
Proof.
  unfold int_literal, py_int. intros H. apply skip_space_literal.
  destruct (skip_space s) as [|c r]; [reflexivity|].
  revert H.
  destruct (Ascii.eqb_spec c "+") as [->|Hplus].
  { cbv beta iota zeta. intros H. apply (parse_tail_literal r s false) in H.
    cbn [string_forall]. rewrite H. reflexivity. }
  destruct (Ascii.eqb_spec c "-") as [->|Hminus].
  { cbv beta iota zeta. intros H. apply (parse_tail_literal r s true) in H.
    cbn [string_forall]. rewrite H. reflexivity. }
  cbv beta iota zeta. intros H.
  apply (parse_tail_literal (String c r) s false) in H. exact H.
Qed.

Lemma string_forall_occurs (p : ascii -> bool) (c : ascii) (s : string) :
  string_forall p s = true -> occurs c s = true -> p c = true.
Proof.
  induction s as [|d r IH]; simpl; [discriminate|].
  intros H Ho. apply andb_true_iff in H. destruct H as [Hd Hr].
  destruct (Ascii.eqb_spec d c) as [<-|]; [exact Hd|]. apply IH; assumption.
Qed.

Lemma split_not_nil (sep : ascii) (s : string) : split sep s <> [].
Proof.
  destruct s as [|c r]; simpl; [discriminate|].
  destruct (Ascii.eqb c sep); [discriminate|].
  destruct (split sep r); discriminate.
Qed.

(** A character other than the separator sits in one of the parts. *)
Lemma occurs_split (sep c : ascii) (s : string) :
  occurs c s = true -> c <> sep ->
  exists part, In part (split sep s) /\ occurs c part = true.
Proof.
  intros Ho Hc. induction s as [|d r IH]; simpl in *; [discriminate|].
  destruct (Ascii.eqb_spec d sep) as [->|Hd].
  - destruct (Ascii.eqb_spec sep c) as [<-|]; [contradiction|].
    destruct (IH Ho) as (part & Hin & Hp). exists part. split; [right|]; assumption.
  - destruct (split sep r) as [|h t] eqn:E;
      [now contradiction (split_not_nil sep r)|].
    destruct (Ascii.eqb_spec d c) as [->|].
    + exists (String c h). split; [left; reflexivity|].
      simpl. now rewrite Ascii.eqb_refl.
    + destruct (IH Ho) as (part & [<-|Hin] & Hp).
      * exists (String d h). split; [left; reflexivity|].
        simpl. rewrite Hp. apply orb_true_r.
      * exists part. split; [right|]; assumption.
Qed.

Lemma three_int_literals_chars (s : string) (c : ascii) :
  three_int_literals s = true -> occurs c s = true -> c <> "."%char ->
  literal_char c = true.
Proof.
  intros H Ho Hc. destruct (occurs_split "." c s Ho Hc) as (part & Hin & Hp).
  unfold three_int_literals in H.
  destruct (split "." s) as [|p1 [|p2 [|p3 [|p4 l]]]]; try discriminate.
  apply andb_true_iff in H. destruct H as [H H3].
  apply andb_true_iff in H. destruct H as [H1 H2].
  destruct Hin as [<-|[<-|[<-|[]]]].
  - exact (string_forall_occurs _ c p1 (int_literal_chars p1 H1) Hp).
  - exact (string_forall_occurs _ c p2 (int_literal_chars p2 H2) Hp).
  - exact (string_forall_occurs _ c p3 (int_literal_chars p3 H3) Hp).
Qed.

(** X7.  A version string, on either side, that contains any character
    of U+0000..U+00FF other than the ASCII digits, the dot, "+", "-", "_"
    and the white space [int] strips (a letter, for instance, as in a
    pre-release tag) is a format error.  The strings of the model consist
    of such code points. *)
Theorem foreign_character_rejected (cv av : string) (c : ascii) (st : state) :
  occurs c cv = true \/ occurs c av = true ->
  literal_char c = false ->
  c <> "."%char ->
  exists e, fst (is_version_compatible (VStr cv) av st) = inl e /\
            is_ValueError e = true.
Proof.
  intros Ho Hl Hc. rewrite is_version_compatible_result.
  apply comparator_format_error.
  destruct Ho as [Ho|Ho]; [left|right];
    match goal with
    | |- three_int_literals ?s = false =>
        destruct (three_int_literals s) eqn:T; [|reflexivity];
        rewrite (three_int_literals_chars s c T Ho Hc) in Hl; discriminate
    end.
Qed.

Lemma foreign_character_rejected_witness :
  exists e, fst (is_version_compatible (VStr "1.0.0") "1.0.0rc1" initial_state)
            = inl e /\ is_ValueError e = true.
Proof.
  apply (foreign_character_rejected "1.0.0" "1.0.0rc1" "r").
  - right. reflexivity.
  - reflexivity.
  - discriminate.
Defined.

Lemma split_length (sep : ascii) (s : string) :
  List.length (split sep s) = S (count_char sep s).
Proof.
  induction s as [|c r IH]; simpl; [reflexivity|].
  destruct (Ascii.eqb c sep); simpl; [now rewrite IH|].
  destruct (split sep r); simpl in *; [discriminate | exact IH].
Qed.

(** X8.  A version string that does not contain exactly two dots, on
    either side, is a format error. *)
Theorem dot_count_rejected (cv av : string) (st : state) :
  count_char "." cv <> 2%nat \/ count_char "." av <> 2%nat ->
  exists e, fst (is_version_compatible (VStr cv) av st) = inl e /\
            is_ValueError e = true.
Proof.
  intros H. rewrite is_version_compatible_result.
  apply comparator_format_error.
  assert (D : forall s, count_char "." s <> 2%nat -> three_int_literals s = false).
  { intros s Hs. unfold three_int_literals.
    pose proof (split_length "." s) as L.
    destruct (split "." s) as [|p1 [|p2 [|p3 [|p4 l]]]]; try reflexivity.
    simpl in L. congruence. }
  destruct H as [H|H]; [left|right]; apply D, H.
Qed.

Lemma dot_count_rejected_witness :
  exists e, fst (is_version_compatible (VStr "1.2.3.4") "1.2.3" initial_state)
            = inl e /\ is_ValueError e = true.
Proof.
  apply dot_count_rejected. left. simpl. discriminate.
Defined.

Lemma decimal_acc_nonneg (s : string) :
  all_digits s = true -> forall acc, 0 <= acc -> 0 <= decimal_acc acc s.
Proof.
  induction s as [|c r IH]; cbn [decimal_acc all_digits]; intros H acc Ha;
    [exact Ha|].
  apply andb_true_iff in H. destruct H as [Hc Hr].
  apply IH; [exact Hr|]. unfold is_digit in Hc. to_arith. lia.
Qed.

Lemma decimal_value_nonneg (s : string) :
  decimal s = true -> 0 <= decimal_value s.
Proof.
  intros H. apply decimal_acc_nonneg; [apply decimal_all_digits, H | lia].
Qed.

(** X9.  A configured version whose major component is a minus sign
    followed by a non-zero decimal number within the digit limit, and whose
    minor and patch components are any that [int] accepts, passes against
    every well-formed application version within the digit limit. *)
Theorem negative_major_passes
  (cv d minor patch av : string) (aM am ap : Z) (st : state) :
  split "." cv = [String "-" d; minor; patch] ->
  decimal d = true ->
  (String.length d <= int_max_str_digits)%nat ->
  decimal_value d <> 0 ->
  int_literal minor = true ->
  int_literal patch = true ->
  spec_parse_version av = Some (aM, am, ap) ->
  within_digit_limit av = true ->
  fst (is_version_compatible (VStr cv) av st) = inr true.
Proof.
  intros Hs Hd Hn Hz Hm Hp Ha La. rewrite is_version_compatible_result.
  unfold int_literal in Hm, Hp.
  destruct (py_int minor) as [|cm] eqn:Em; [discriminate|].
  destruct (py_int patch) as [|cp] eqn:Ep; [discriminate|].
  assert (Uc : unpack3 (split "." cv) = inr (- decimal_value d, cm, cp)).
  { rewrite Hs. unfold unpack3. rewrite (py_int_negative d Hd Hn), Em, Ep.
    reflexivity. }
  apply (comparator_true_iff cv av _ _ _ _ _ _ Uc
           (spec_parse_unpack3 _ _ _ _ Ha La)).
  pose proof (decimal_value_nonneg d Hd).
  assert (0 <= aM).
  { unfold spec_parse_version in Ha.
    destruct (split "." av) as [|a [|b [|c [|x l]]]]; try discriminate.
    destruct (decimal a) eqn:Da; [|discriminate].
    destruct (decimal b); [|discriminate].
    destruct (decimal c); [|discriminate].
    injection Ha as <- _ _. apply decimal_value_nonneg, Da. }
  lia.
Qed.

Lemma negative_major_passes_witness :
  fst (is_version_compatible (VStr "-1.99.0") "0.0.1" initial_state) = inr true.
Proof.
  apply (negative_major_passes "-1.99.0" "1" "99" "0" "0.0.1" 0 0 1);
    try reflexivity.
  - apply Nat.leb_le. reflexivity.
  - discriminate.
Defined.

(** ** The logging threshold and debug records *)

Lemma keeps_level_ret {A} (a : A) : keeps_level (ret a).
Proof. intros st. reflexivity. Qed.

Lemma keeps_level_raise {A} (e : exn) : keeps_level (@raise A e).
Proof. intros st. reflexivity. Qed.

Lemma keeps_level_lift {A} (r : exn + A) : keeps_level (lift r).
Proof. intros st. reflexivity. Qed.

Lemma keeps_level_emit (ev : event) : keeps_level (emit ev).
Proof. intros st. reflexivity. Qed.

Lemma keeps_level_logging (lvl : level) (msg : log_msg) :
  keeps_level (logging lvl msg).
Proof.
  intros st. unfold logging, emit.
  destruct (level_rank (log_level st) <=? level_rank lvl)%nat; reflexivity.
Qed.

Lemma keeps_level_bind {A B} (m : M A) (k : A -> M B) :
  keeps_level m -> (forall a, keeps_level (k a)) -> keeps_level (bind m k).
Proof.
  intros Hm Hk st. unfold bind. specialize (Hm st).
  destruct (m st) as [[e|a] st']; simpl in *; [exact Hm|].
  rewrite (Hk a st'). exact Hm.
Qed.

Lemma keeps_level_try_except {A} (m : M A) (h : exn -> M A) :
  keeps_level m -> (forall e, keeps_level (h e)) -> keeps_level (try_except m h).
Proof.
  intros Hm Hh st. unfold try_except. specialize (Hm st).
  destruct (m st) as [[e|a] st']; simpl in *; [|exact Hm].
  rewrite (Hh e st'). exact Hm.
Qed.

Lemma keeps_level_with_close {A} (path : string) (m : M A) :
  keeps_level m -> keeps_level (with_close path m).
Proof.
  intros Hm st. unfold with_close. specialize (Hm st).
  destruct (m st) as [r st']; simpl in *. exact Hm.
Qed.

Ltac keeps_level_step :=
  first
    [ apply keeps_level_ret | apply keeps_level_raise | apply keeps_level_lift
    | apply keeps_level_logging | apply keeps_level_emit
    | apply keeps_level_bind; [|intro]
    | apply keeps_level_try_except; [|intro]
    | apply keeps_level_with_close
    | match goal with
      | |- keeps_level (if ?b then _ else _) => destruct b
      | |- keeps_level (match ?x with _ => _ end) => destruct x
      end ].

Lemma keeps_level_extract_version (doc : pyval) (key : string) :
  keeps_level (extract_version doc key).
Proof. unfold extract_version, sys_exit. repeat keeps_level_step. Qed.

Lemma keeps_level_is_version_compatible (v : pyval) (av : string) :
  keeps_level (is_version_compatible v av).
Proof. unfold is_version_compatible. repeat keeps_level_step. Qed.

Lemma forallb_snoc {A} (p : A -> bool) (l : list A) (a : A) :
  forallb p (l ++ [a]) = forallb p l && p a.
Proof. rewrite forallb_app. simpl. now rewrite andb_true_r. Qed.

Lemma no_debug_ret {A} (a : A) : no_debug_at_info (ret a).
Proof. intros st H. split; [exact H | trivial]. Qed.

Lemma no_debug_raise {A} (e : exn) : no_debug_at_info (@raise A e).
Proof. intros st H. split; [exact H | trivial]. Qed.

Lemma no_debug_lift {A} (r : exn + A) : no_debug_at_info (lift r).
Proof. intros st H. split; [exact H | trivial]. Qed.

Lemma no_debug_emit (ev : event) :
  is_debug_record ev = false -> no_debug_at_info (emit ev).
Proof.
  intros Hev st H. split; [exact H|]. simpl. intros Ht.
  rewrite forallb_snoc, Ht, Hev. reflexivity.
Qed.

Lemma no_debug_logging (lvl : level) (msg : log_msg) :
  no_debug_at_info (logging lvl msg).
Proof.
  intros [l tr] H. simpl in H. subst l. unfold logging, emit.
  destruct lvl; simpl; (split; [reflexivity|]); trivial;
    intros Ht; rewrite forallb_snoc, Ht; reflexivity.
Qed.

Lemma no_debug_bind {A B} (m : M A) (k : A -> M B) :
  no_debug_at_info m -> (forall a, no_debug_at_info (k a)) ->
  no_debug_at_info (bind m k).
Proof.
  intros Hm Hk st H. unfold bind. specialize (Hm st H).
  destruct (m st) as [[e|a] st']; simpl in *; [exact Hm|].
  destruct Hm as [Hl Ht]. destruct (Hk a st' Hl) as [Hl' Ht']. auto.
Qed.

Lemma no_debug_try_except {A} (m : M A) (h : exn -> M A) :
  no_debug_at_info m -> (forall e, no_debug_at_info (h e)) ->
  no_debug_at_info (try_except m h).
Proof.
  intros Hm Hh st H. unfold try_except. specialize (Hm st H).
  destruct (m st) as [[e|a] st']; simpl in *; [|exact Hm].
  destruct Hm as [Hl Ht]. destruct (Hh e st' Hl) as [Hl' Ht']. auto.
Qed.

Lemma no_debug_with_close {A} (path : string) (m : M A) :
  no_debug_at_info m -> no_debug_at_info (with_close path m).
Proof.
  intros Hm st H. unfold with_close. specialize (Hm st H).
  destruct (m st) as [r st']; simpl in *. destruct Hm as [Hl Ht].
  split; [exact Hl|]. intros Hs. rewrite forallb_snoc, (Ht Hs). reflexivity.
Qed.

Ltac no_debug_step :=
  first
    [ apply no_debug_ret | apply no_debug_raise | apply no_debug_lift
    | apply no_debug_logging
    | apply no_debug_emit; reflexivity
    | apply no_debug_bind; [|intro]
    | apply no_debug_try_except; [|intro]
    | apply no_debug_with_close
    | match goal with
      | |- no_debug_at_info (if ?b then _ else _) => destruct b
      | |- no_debug_at_info (match ?x with _ => _ end) => destruct x
      end ].

Lemma no_debug_extract_version (doc : pyval) (key : string) :
  no_debug_at_info (extract_version doc key).
Proof. unfold extract_version, sys_exit. repeat no_debug_step. Qed.

Lemma no_debug_is_version_compatible (v : pyval) (av : string) :
  no_debug_at_info (is_version_compatible v av).
Proof. unfold is_version_compatible. repeat no_debug_step. Qed.

Lemma no_debug_main_except (e : exn) : no_debug_at_info (main_except e).
Proof. unfold main_except, sys_exit. repeat no_debug_step. Qed.

(** ** The loader and whole runs *)

Section ProgramFurther.

Variable file : Type.
Variable py_open : string -> (lib_class * string) + file.
Variable json_load : file -> (lib_class * string) + pyval.
Variable yaml_safe_load : file -> (lib_class * string) + pyval.

Local Abbreviation load := (load_config py_open json_load yaml_safe_load).
Local Abbreviation loaded := (load_result py_open json_load yaml_safe_load).
Local Abbreviation program := (main py_open json_load yaml_safe_load).
Local Abbreviation process_of := (run py_open json_load yaml_safe_load).
Local Abbreviation piped := (pipeline py_open json_load yaml_safe_load).

Lemma keeps_level_load_config (path tag : string) : keeps_level (load path tag).
Proof. unfold load_config, lib_call. repeat keeps_level_step. Qed.

Lemma no_debug_load_config (path tag : string) : no_debug_at_info (load path tag).
Proof. unfold load_config, lib_call. repeat no_debug_step. Qed.

(** X10.  The loader returns a document exactly when the file opens and
    the parser selected by the tag returns that document; the document is
    handed on as the parser produced it. *)
Theorem load_succeeds_iff (path tag : string) (doc : pyval) (st : state) :
  fst (load path tag st) = inr doc <->
  exists f,
    py_open path = inr f /\
    ((tag = "json" /\ json_load f = inr doc) \/
     (tag = "yaml" /\ yaml_safe_load f = inr doc)).
Proof.
  rewrite load_config_result. unfold load_result, lib_result.
  destruct (py_open path) as [[c msg]|f].
  { split; [discriminate|]. intros (f & H & _). discriminate. }
  destruct (String.eqb_spec tag "json") as [->|Hj].
  { destruct (json_load f) as [[c msg]|d] eqn:J.
    - split; [discriminate|].
      intros (f' & H & [[_ H']|[H' _]]); [|discriminate].
      injection H as <-. congruence.
    - split.
      + intros H. injection H as <-. exists f. auto.
      + intros (f' & H & [[_ H']|[H' _]]); [|discriminate].
        injection H as <-. congruence. }
  destruct (String.eqb_spec tag "yaml") as [->|Hy].
  { destruct (yaml_safe_load f) as [[c msg]|d] eqn:Y.
    - split; [discriminate|].
      intros (f' & H & [[H' _]|[_ H']]); [discriminate|].
      injection H as <-. congruence.
    - split.
      + intros H. injection H as <-. exists f. auto.
      + intros (f' & H & [[H' _]|[_ H']]); [discriminate|].
        injection H as <-. congruence. }
  split; [discriminate|].
  intros (f' & _ & [[H _]|[H _]]); contradiction.
Qed.

(** X11.  The file operations of the loader: one attempt to open; when it
    succeeds, at most one parse, by the parser the tag selects, and then
    the close, on every path including a parser failure; when it fails,
    nothing else. *)
Theorem load_file_footprint (path tag : string) (st : state) :
  file_events (trace (snd (load path tag st)))
  = (file_events (trace st) ++
     match py_open path with
     | inl _ => [FileOpen path]
     | inr _ =>
         if String.eqb tag "json" then
           [FileOpen path; FileParse Json path; FileClose path]
         else if String.eqb tag "yaml" then
           [FileOpen path; FileParse Yaml path; FileClose path]
         else [FileOpen path; FileClose path]
     end)%list.
Proof.
  unfold file_events.
  unfold load_config, try_except, bind, with_close, lib_call, emit, raise, ret,
    logging.
  destruct st as [l tr].
  destruct (py_open path) as [[c msg]|f]; simpl.
  - destruct c; destruct l; simpl;
      rewrite ?filter_app; simpl; rewrite ?app_nil_r; reflexivity.
  - destruct (String.eqb tag "json").
    + destruct (json_load f) as [[c msg]|doc]; simpl;
        [destruct c|]; destruct l; simpl;
        rewrite ?filter_app; simpl; rewrite ?app_nil_r, <- ?app_assoc;
        reflexivity.
    + destruct (String.eqb tag "yaml").
      * destruct (yaml_safe_load f) as [[c msg]|doc]; simpl;
          [destruct c|]; destruct l; simpl;
          rewrite ?filter_app; simpl; rewrite ?app_nil_r, <- ?app_assoc;
          reflexivity.
      * destruct l; simpl;
          rewrite ?filter_app; simpl; rewrite ?app_nil_r, <- ?app_assoc;
          reflexivity.
Qed.

(** X12.  A JSON decoding error is re-raised unchanged and logged twice by
    the loader: by the clause around [json.load] and again, after the file
    is closed, by the outer [ValueError] clause. *)
Theorem json_error_logged_twice
  (path msg : string) (f : file) (st : state) :
  py_open path = inr f ->
  json_load f = inl (CJSONDecodeError, msg) ->
  load path "json" st
  = (inl (LibError CJSONDecodeError msg),
     mkState (log_level st)
       (trace st ++
        [FileOpen path; FileParse Json path;
         Log ERROR (TextExn "Error decoding JSON file: "
                      (LibError CJSONDecodeError msg));
         FileClose path;
         Log ERROR (TextExn "" (LibError CJSONDecodeError msg))])).
Proof.
  intros Ho Hj.
  unfold load_config, try_except, bind, with_close, lib_call, emit, raise, ret.
  rewrite Ho. simpl. rewrite Hj. simpl.
  rewrite logging_error_emits. simpl. rewrite logging_error_emits. simpl.
  rewrite <- !app_assoc. reflexivity.
Qed.

(** X13.  A YAML parsing error is not a [ValueError]: the loader logs it
    once, and [main] reports it through its last clause as an unexpected
    error before exiting with status 1. *)
Theorem yaml_error_reported_as_unexpected (a : args) (f : file) (msg : string) :
  config_type a = "yaml" ->
  py_open (config_file a) = inr f ->
  yaml_safe_load f = inl (CYAMLError, msg) ->
  exit_status (process_of a) = 1 /\
  events (process_of a)
  = (prelude_events a ++
     [FileOpen (config_file a); FileParse Yaml (config_file a);
      Log ERROR (TextExn "Error decoding YAML file: " (LibError CYAMLError msg));
      FileClose (config_file a);
      Log ERROR (TextExn "An unexpected error occurred: "
                   (LibError CYAMLError msg))])%list.
Proof.
  intros Ht Ho Hy.
  unfold run, main, prelude_events, load_config, main_except, sys_exit,
    try_except, bind, with_close, lib_call, emit, raise, ret.
  rewrite Ht, Ho.
  destruct (verbose a); simpl; rewrite Hy; simpl; split; reflexivity.
Qed.

(** X14.  A missing file ends the run with status 1 whatever the format
    tag is; it is logged once, with the path, and nothing is parsed. *)
Theorem missing_file_run (a : args) (msg : string) :
  py_open (config_file a) = inl (CFileNotFoundError, msg) ->
  exit_status (process_of a) = 1 /\
  stdout (process_of a) = [] /\
  events (process_of a)
  = (prelude_events a ++
     [FileOpen (config_file a);
      Log ERROR (Text ("Configuration file not found: " ++ config_file a))])%list.
Proof.
  intros Ho.
  unfold run, main, prelude_events, load_config, main_except, sys_exit,
    try_except, bind, with_close, lib_call, emit, raise, ret.
  rewrite Ho.
  destruct (verbose a); simpl; repeat split; reflexivity.
Qed.

(** X15.  The verbosity flag changes neither the exit status nor the
    standard output of a run. *)
Theorem verbose_keeps_outcome
  (cfile aversion key ctype : string) (b b' : bool) :
  exit_status (run py_open json_load yaml_safe_load
                 (mkArgs cfile aversion key ctype b))
  = exit_status (run py_open json_load yaml_safe_load
                   (mkArgs cfile aversion key ctype b')) /\
  stdout (run py_open json_load yaml_safe_load
            (mkArgs cfile aversion key ctype b))
  = stdout (run py_open json_load yaml_safe_load
              (mkArgs cfile aversion key ctype b')).
Proof.
  pose proof (run_spec file py_open json_load yaml_safe_load
                (mkArgs cfile aversion key ctype b)) as R.
  pose proof (run_spec file py_open json_load yaml_safe_load
                (mkArgs cfile aversion key ctype b')) as R'.
  unfold pipeline in R, R'. simpl in R, R'.
  destruct (loaded cfile ctype) as [e|doc];
    [destruct R as [-> ->], R' as [-> ->]; split; reflexivity|].
  destruct (extract_result doc key) as [e|v];
    [destruct R as [-> ->], R' as [-> ->]; split; reflexivity|].
  destruct (comparator_result v aversion) as [e|c];
    destruct R as [-> ->], R' as [-> ->]; split; reflexivity.
Qed.

(** X16.  Without the verbosity flag a run emits no DEBUG record. *)
Theorem no_debug_record_unless_verbose (a : args) (msg : log_msg) :
  verbose a = false ->
  ~ In (Log DEBUG msg) (events (process_of a)).
Proof.
  intros Hv Hin.
  assert (N : no_debug_at_info (program a)).
  { unfold main. rewrite Hv.
    apply no_debug_bind; [apply no_debug_ret | intros _].
    apply no_debug_try_except; [|apply no_debug_main_except].
    apply no_debug_bind; [apply no_debug_load_config | intros doc].
    apply no_debug_bind; [apply no_debug_extract_version | intros v].
    apply no_debug_bind; [apply no_debug_is_version_compatible | intros _].
    apply no_debug_emit. reflexivity. }
  destruct (N initial_state eq_refl) as [_ Ht]. specialize (Ht eq_refl).
  unfold run in Hin. destruct (program a initial_state) as [r st].
  simpl in Ht, Hin.
  rewrite forallb_forall in Ht. specialize (Ht _ Hin). discriminate Ht.
Qed.

(** X17.  A run that exits with status 0 has loaded a mapping that holds
    a string under the version key, and ends with the INFO record naming
    that string and the application version, followed by the success line
    on standard output. *)
Theorem success_ends_with_log_and_print (a : args) :
  exit_status (process_of a) = 0 ->
  exists tr entries cv,
    result_of (load (config_file a) (config_type a)) = inr (VDict entries) /\
    dict_get entries (version_key a) = Some (VStr cv) /\
    events (process_of a)
    = (tr ++
       [Log INFO (Text ("Configuration version " ++ cv ++
                        " is compatible with application version " ++
                        app_version a ++ "."));
        Stdout "Configuration version is compatible."])%list.
Proof.
  intros H0. pose proof (run_spec file py_open json_load yaml_safe_load a) as R.
  destruct (piped a) as [e|b] eqn:P; [destruct R as [R _]; congruence|].
  clear R H0. unfold pipeline in P.
  destruct (loaded (config_file a) (config_type a)) as [e|doc] eqn:EL;
    [discriminate|].
  destruct (extract_result doc (version_key a)) as [e|v] eqn:EX; [discriminate|].
  assert (Hdoc : exists entries cv,
             doc = VDict entries /\
             dict_get entries (version_key a) = Some (VStr cv) /\
             v = VStr cv).
  { unfold extract_result, py_get in EX.
    destruct doc; try discriminate.
    destruct (dict_get entries (version_key a)) as [v'|] eqn:G; [|discriminate].
    destruct (truthy v'); [|discriminate]. injection EX as ->.
    unfold comparator_result in P.
    destruct v; try discriminate. exists entries, s. auto. }
  destruct Hdoc as (entries & cv & -> & Hg & ->).
  unfold run, main. set (prelude := if verbose a then _ else _).
  unfold bind, try_except.
  assert (Hp : exists st0, prelude initial_state = (inr tt, st0) /\
                 (level_rank (log_level st0) <= level_rank INFO)%nat).
  { subst prelude. destruct (verbose a); eexists; split; try reflexivity;
      simpl; lia. }
  destruct Hp as (st0 & -> & Hl0).
  pose proof (load_config_result file py_open json_load yaml_safe_load
                (config_file a) (config_type a) st0) as L.
  pose proof (keeps_level_load_config (config_file a) (config_type a) st0) as KL.
  destruct (load (config_file a) (config_type a) st0) as [r1 st1].
  simpl in L, KL. rewrite EL in L. subst r1.
  pose proof (extract_version_result (VDict entries) (version_key a) st1) as X.
  pose proof (keeps_level_extract_version (VDict entries) (version_key a) st1) as KX.
  destruct (extract_version (VDict entries) (version_key a) st1) as [r2 st2].
  simpl in X, KX. rewrite EX in X. subst r2.
  pose proof (is_version_compatible_result (VStr cv) (app_version a) st2) as C.
  pose proof (is_version_compatible_success (VStr cv) (app_version a) st2 b) as S.
  rewrite KX, KL in S. specialize (S Hl0 P).
  destruct (is_version_compatible (VStr cv) (app_version a) st2) as [r3 st3].
  simpl in C, S. rewrite P in C. subst r3 st3.
  unfold print, emit. simpl.
  exists (trace st2), entries, cv. split; [|split].
  - unfold result_of. rewrite load_config_result. exact EL.
  - exact Hg.
  - rewrite <- app_assoc. reflexivity.
Qed.

(** X18.  When the document is a mapping whose version is a non-empty
    string, the run exits with status 0 exactly when the check of that
    string against the application version passes. *)
Theorem run_reflects_check
  (a : args) (entries : list (pyval * pyval)) (cv : string) :
  result_of (load (config_file a) (config_type a)) = inr (VDict entries) ->
  dict_get entries (version_key a) = Some (VStr cv) ->
  cv <> "" ->
  exit_status (process_of a) = 0 <->
  result_of (is_version_compatible (VStr cv) (app_version a)) = inr true.
Proof.
  intros HL Hg Hne. unfold result_of in *.
  rewrite load_config_result in HL. rewrite is_version_compatible_result.
  pose proof (run_spec file py_open json_load yaml_safe_load a) as R.
  unfold pipeline in R. rewrite HL in R.
  unfold extract_result, py_get in R. rewrite Hg in R. simpl in R.
  apply String.eqb_neq in Hne. rewrite Hne in R. simpl in R.
  destruct (comparator_result (VStr cv) (app_version a)) as [e|b] eqn:C.
  - destruct R as [R _]. rewrite R. split; discriminate.
  - destruct R as [R _]. rewrite R, (comparator_result_true _ _ _ C).
    split; reflexivity.
Qed.

End ProgramFurther.


(** ** Witnesses in the small worlds *)

Lemma json_error_logged_twice_witness :
  fst (load_config world_open (world_fail CJSONDecodeError "Expecting value")
         (world_parse VNone) "bad.json" "json" initial_state)
  = inl (LibError CJSONDecodeError "Expecting value").
Proof.
  rewrite (json_error_logged_twice string world_open
             (world_fail CJSONDecodeError "Expecting value") (world_parse VNone)
             "bad.json" "Expecting value" "bad.json" initial_state
             eq_refl eq_refl).
  reflexivity.
Defined.

Lemma yaml_error_reported_as_unexpected_witness :
  exit_status
    (run world_open (world_parse VNone) (world_fail CYAMLError "bad indentation")
       (mkArgs "bad.yaml" "1.0.0" "version" "yaml" true)) = 1.
Proof.
  apply (yaml_error_reported_as_unexpected string world_open
           (world_parse VNone) (world_fail CYAMLError "bad indentation")
           (mkArgs "bad.yaml" "1.0.0" "version" "yaml" true)
           "bad.yaml" "bad indentation"); reflexivity.
Defined.

Lemma missing_file_run_witness :
  exit_status
    (run empty_open (world_parse VNone) (world_parse VNone)
       (mkArgs "nowhere.json" "1.0.0" "version" "json" false)) = 1.
Proof.
  apply (missing_file_run string empty_open (world_parse VNone) (world_parse VNone)
           (mkArgs "nowhere.json" "1.0.0" "version" "json" false)
           "No such file or directory"). reflexivity.
Defined.

Lemma no_debug_record_unless_verbose_witness :
  ~ In (Log DEBUG (Text "Successfully loaded config file: config.json"))
       (events (run_with (VDict [(VStr "version", VStr "1.0.0")])
                  (mkArgs "config.json" "1.0.0" "version" "json" false))).
Proof.
  apply (no_debug_record_unless_verbose string world_open
           (world_parse (VDict [(VStr "version", VStr "1.0.0")]))
           (world_parse (VDict [(VStr "version", VStr "1.0.0")]))).
  reflexivity.
Defined.

Lemma success_ends_with_log_and_print_witness :
  exists tr entries cv,
    result_of (load_config world_open
                 (world_parse (VDict [(VStr "version", VStr "1.0.0")]))
                 (world_parse (VDict [(VStr "version", VStr "1.0.0")]))
                 "config.json" "json")
    = inr (VDict entries) /\
    dict_get entries "version" = Some (VStr cv) /\
    events (run_with (VDict [(VStr "version", VStr "1.0.0")])
              (mkArgs "config.json" "1.2.0" "version" "json" true))
    = (tr ++
       [Log INFO (Text ("Configuration version " ++ cv ++
                        " is compatible with application version " ++
                        "1.2.0" ++ "."));
        Stdout "Configuration version is compatible."])%list.
Proof.
  apply (success_ends_with_log_and_print string world_open
           (world_parse (VDict [(VStr "version", VStr "1.0.0")]))
           (world_parse (VDict [(VStr "version", VStr "1.0.0")]))
           (mkArgs "config.json" "1.2.0" "version" "json" true)).
  reflexivity.
Defined.

Lemma run_reflects_check_witness :
  exit_status
    (run_with (VDict [(VStr "name", VStr "app"); (VStr "version", VStr "1.0.0")])
       (mkArgs "config.yaml" "1.2.0" "version" "yaml" false)) = 0.
Proof.
  apply (run_reflects_check string world_open
           (world_parse (VDict [(VStr "name", VStr "app");
                                (VStr "version", VStr "1.0.0")]))
           (world_parse (VDict [(VStr "name", VStr "app");
                                (VStr "version", VStr "1.0.0")]))
           (mkArgs "config.yaml" "1.2.0" "version" "yaml" false)
           [(VStr "name", VStr "app"); (VStr "version", VStr "1.0.0")]
           "1.0.0");
    try reflexivity.
  discriminate.
Defined.
